(** * OAuth-Service: the credential and token lifecycle

    A shallow embedding of [src/services/auth.service.js] and of the access
    control middleware ([isAuthenticated], [hasRole]), with the libraries the
    service calls (jsonwebtoken, bcrypt, the mongoose models) taken through
    their contracts. *)

From Stdlib Require Import ZArith Ascii String List Lia.
From stdpp Require Import base option strings gmap list countable.

Local Open Scope string_scope.
Local Open Scope Z_scope.

(** ** JavaScript values and objects *)

(** The primitive values that travel through the service: [undefined],
    strings and numbers. *)
Inductive jsval : Type :=
  | JUndefined
  | JStr (s : string)
  | JNum (n : Z).

#[global] Instance jsval_eq_dec : EqDecision jsval.
Proof. solve_decision. Defined.

Definition jsval_to_sum (v : jsval) : unit + (string + Z) :=
  match v with
  | JUndefined => inl tt
  | JStr s => inr (inl s)
  | JNum n => inr (inr n)
  end.

Definition jsval_of_sum (x : unit + (string + Z)) : jsval :=
  match x with
  | inl _ => JUndefined
  | inr (inl s) => JStr s
  | inr (inr n) => JNum n
  end.

#[global] Instance jsval_countable : Countable jsval.
Proof.
  apply (inj_countable' jsval_to_sum jsval_of_sum).
  intros []; reflexivity.
Defined.

(** A plain object: property names to values.  Reading a property that is
    not there gives [undefined]. *)
Abbreviation jsobj := (gmap string jsval).

Definition get (o : jsobj) (k : string) : jsval :=
  match o !! k with
  | Some v => v
  | None => JUndefined
  end.

(** [a !== b] on primitives. *)
Definition strict_ne (a b : jsval) : bool := negb (bool_decide (a = b)).

(** What [JSON.stringify] keeps of an object: properties whose value is
    [undefined] are dropped. *)
Definition json_fields (o : jsobj) : jsobj :=
  filter (fun kv => kv.2 <> JUndefined) o.

(** ** Exceptions *)

Inductive exn : Type :=
  | Error (message : string)
  | TypeError (reading : string)
  | JsonWebTokenError (message : string)
  | TokenExpiredError
  | NotBeforeError.

Inductive result (A : Type) : Type :=
  | Ok (a : A)
  | Throw (e : exn).
Arguments Ok {A} a.
Arguments Throw {A} e.

(** The error taxonomy of the specification, read off the thrown value. *)
Inductive ErrorKind : Type :=
  | UserNotFound
  | InvalidCredentials
  | InvalidToken
  | InvalidRole
  | Unclassified.

Definition kind_of (e : exn) : ErrorKind :=
  match e with
  | Error m =>
      if String.eqb m "User not found" then UserNotFound
      else if String.eqb m "Invalid password" then InvalidCredentials
      else if String.eqb m "Invalid token" then InvalidToken
      else if String.eqb m "Invalid role" then InvalidRole
      else Unclassified
  | JsonWebTokenError _ | TokenExpiredError | NotBeforeError => InvalidToken
  | TypeError _ => Unclassified
  end.

(** ** jsonwebtoken *)

(** The signing primitive under [jwt.sign] and [jwt.verify]: a compact
    serialisation of a payload under a key, and its inverse, which gives
    nothing on a string that is not such a serialisation under that key.
    The compact form is three dot-separated base64url segments, so it is
    not empty and holds no blank. *)
Class JwsLib : Type := {
  jws_sign : jsobj -> string -> string;
  jws_open : string -> string -> option jsobj;
  jws_open_sign : forall p k, jws_open (jws_sign p k) k = Some p;
  jws_open_empty : forall k, jws_open "" k = None;
  jws_no_blank : forall t k p,
    jws_open t k = Some p -> forall a b, t <> a +:+ " " +:+ b
}.

Section Jwt.
Context {jws : JwsLib}.

(** [Math.floor(Date.now() / 1000)]. *)
Definition clock (now : Z) : Z := now / 1000.

(** [jwt.sign(payload, secret, {expiresIn})] with a numeric [expiresIn]
    (seconds): stamps [iat] and [exp] on the payload and signs it. *)
Definition jwt_sign (payload : jsobj) (secret : string) (expiresIn : Z)
    (now : Z) : string :=
  let timestamp := clock now in
  jws_sign
    (<["exp" := JNum (timestamp + expiresIn)]>
       (<["iat" := JNum timestamp]> (json_fields payload)))
    secret.

(** The two claim checks of [jwt.verify], each skipped when the claim is
    absent: a token is not yet valid while the clock is before [nbf], and
    is expired once the clock has reached [exp]. *)
Definition check_nbf (payload : jsobj) (clockTimestamp : Z) : option exn :=
  match get payload "nbf" with
  | JUndefined => None
  | JNum nbf => if clockTimestamp <? nbf then Some NotBeforeError else None
  | JStr _ => Some (JsonWebTokenError "invalid nbf value")
  end.

Definition check_exp (payload : jsobj) (clockTimestamp : Z) : option exn :=
  match get payload "exp" with
  | JUndefined => None
  | JNum exp => if exp <=? clockTimestamp then Some TokenExpiredError else None
  | JStr _ => Some (JsonWebTokenError "invalid exp value")
  end.

(** [jwt.verify(token, secret)]: the signature first, then [nbf] and [exp]
    against the clock; the decoded payload when all pass. *)
Definition jwt_verify (token : string) (secret : string) (now : Z)
    : result jsobj :=
  match jws_open token secret with
  | None => Throw (JsonWebTokenError "invalid token")
  | Some payload =>
      match check_nbf payload (clock now) with
      | Some e => Throw e
      | None =>
          match check_exp payload (clock now) with
          | Some e => Throw e
          | None => Ok payload
          end
      end
  end.

End Jwt.

(** ** bcrypt *)

(** [bcrypt.hash(data, rounds)] draws a salt of its own; the model takes
    the salt drawn as an argument.  [bcrypt.compare(data, hash)] accepts
    the data a hash was made from. *)
Class BcryptLib : Type := {
  bcrypt_hash : string -> Z -> string -> string;
  bcrypt_compare : string -> string -> bool;
  bcrypt_compare_hash : forall data rounds salt,
    bcrypt_compare data (bcrypt_hash data rounds salt) = true
}.

(** ** Process configuration: [process.env] *)

Record Env : Type := {
  ACCESS_TOKEN_SECRET : string;
  REFRESH_TOKEN_SECRET : string
}.

(** ** The documents of the two collections *)

Module User.

(** Modelled from the spec: [mongo/schema/user] is not among the sources.
    A user document has an identifier, an email, the password hash, a role,
    a first name and a last name. *)
Record t : Type := mk {
  id : string;
  email : string;
  password : string;
  role : string;
  firstname : string;
  lastname : string
}.

#[global] Instance eq_dec : EqDecision t.
Proof. solve_decision. Defined.

(** The paths of the document as an object, for a read by property name
    ([user.name] reads a path the document does not have). *)
Definition fields (u : t) : jsobj :=
  list_to_map
    [ ("id", JStr (id u)); ("email", JStr (email u));
      ("password", JStr (password u)); ("role", JStr (role u));
      ("firstname", JStr (firstname u)); ("lastname", JStr (lastname u)) ].

Definition read (u : t) (k : string) : jsval := get (fields u) k.

(** The document after [user.password = hashed]. *)
Definition set_password (u : t) (hashed : string) : t :=
  {| id := id u;
     email := email u;
     password := hashed;
     role := role u;
     firstname := firstname u;
     lastname := lastname u |}.

End User.

Module TokenData.

(** Modelled from the spec: [mongo/schema/token] is not among the sources.
    A token record holds both token strings, their expiry instants and a
    copy of the user document it was issued for. *)
Record t : Type := mk {
  accessToken : string;
  accessTokenExpiresAt : Z;
  refreshToken : string;
  refreshTokenExpiresAt : Z;
  user : User.t
}.

#[global] Instance eq_dec : EqDecision t.
Proof. solve_decision. Defined.

End TokenData.

Module Credentials.

(** What [generateCredentials] returns. *)
Record t : Type := mk {
  accessToken : string;
  refreshToken : string;
  user : jsobj
}.

End Credentials.

(** ** The store: two collections in insertion order

    The expiry of token records by the store's TTL index is the database's
    own doing, not a step of the service, and has no counterpart here. *)

Record Store : Type := {
  users : list User.t;
  tokens : list TokenData.t
}.

Definition set_users (f : list User.t -> list User.t) (s : Store) : Store :=
  {| users := f (users s); tokens := tokens s |}.

Definition set_tokens (f : list TokenData.t -> list TokenData.t) (s : Store)
    : Store :=
  {| users := users s; tokens := f (tokens s) |}.

(** ** Computations over the store that may throw *)

Definition M (A : Type) : Type := Store -> result A * Store.

Definition ret {A} (a : A) : M A := fun s => (Ok a, s).
Definition throw {A} (e : exn) : M A := fun s => (Throw e, s).
Definition bind {A B} (m : M A) (k : A -> M B) : M B :=
  fun s =>
    match m s with
    | (Ok a, s') => k a s'
    | (Throw e, s') => (Throw e, s')
    end.
Definition lift {A} (r : result A) : M A := fun s => (r, s).
Definition gets {A} (f : Store -> A) : M A := fun s => (Ok (f s), s).
Definition modify (f : Store -> Store) : M unit := fun s => (Ok tt, f s).

Declare Scope store_scope.
Delimit Scope store_scope with store.
Notation "x <- m ;; k" := (bind m (fun x => k))
  (at level 100, m at next level, right associativity) : store_scope.
Notation "m ;;; k" := (bind m (fun _ => k))
  (at level 100, right associativity) : store_scope.
Local Open Scope store_scope.

(** ** The mongoose models *)

(** Removes the first element that satisfies [p] (what [deleteOne] does to
    a collection). *)
Fixpoint remove_first {A} (p : A -> bool) (l : list A) : list A :=
  match l with
  | [] => []
  | x :: l' => if p x then l' else x :: remove_first p l'
  end.

(** Replaces the first element that satisfies [p] (what saving a document
    does to the collection it was read from). *)
Fixpoint replace_first {A} (p : A -> bool) (y : A) (l : list A) : list A :=
  match l with
  | [] => []
  | x :: l' => if p x then y :: l' else x :: replace_first p y l'
  end.

Definition has_id (i : string) (u : User.t) : bool :=
  bool_decide (User.id u = i).
Definition has_email (e : string) (u : User.t) : bool :=
  bool_decide (User.email u = e).
Definition has_accessToken (t : string) (d : TokenData.t) : bool :=
  bool_decide (TokenData.accessToken d = t).
Definition has_refreshToken (t : string) (d : TokenData.t) : bool :=
  bool_decide (TokenData.refreshToken d = t).

(** [UserModel.findOne({email})]. *)
Definition UserModel_findOne (email : string) : M (option User.t) :=
  gets (fun s => List.find (has_email email) (users s)).

(** [UserModel.findById(id)]: an [undefined] id matches no document. *)
Definition UserModel_findById (id : jsval) : M (option User.t) :=
  gets (fun s =>
    match id with
    | JStr i => List.find (has_id i) (users s)
    | _ => None
    end).

(** [UserModel.create(doc)].  Modelled from the spec: the identifier and
    the email are unique in the collection, and a document that repeats
    one is refused by the store. *)
Definition UserModel_create (doc : User.t) : M User.t :=
  fun s =>
    if existsb (has_id (User.id doc)) (users s)
       || existsb (has_email (User.email doc)) (users s)
    then (Throw (Error "E11000 duplicate key error"), s)
    else (Ok doc, set_users (fun l => (l ++ [doc])%list) s).

(** [doc.save()] on a user document read from the collection. *)
Definition UserModel_save (doc : User.t) : M unit :=
  modify (set_users (replace_first (has_id (User.id doc)) doc)).

(** [UserModel.deleteOne({_id})]. *)
Definition UserModel_deleteOne (id : jsval) : M unit :=
  modify (set_users (fun l =>
    match id with
    | JStr i => remove_first (has_id i) l
    | _ => l
    end)).

(** [TokenModel.create(tokenData)]. *)
Definition TokenModel_create (d : TokenData.t) : M unit :=
  modify (set_tokens (fun l => (l ++ [d])%list)).

(** [TokenModel.findOne({accessToken})]. *)
Definition TokenModel_findOne (accessToken : string)
    : M (option TokenData.t) :=
  gets (fun s => List.find (has_accessToken accessToken) (tokens s)).

(** [TokenModel.deleteMany({refreshToken})], as a query that has run. *)
Definition TokenModel_deleteMany (refreshToken : string) : M unit :=
  modify (set_tokens
            (List.filter (fun d => negb (has_refreshToken refreshToken d)))).

(** A query that is built and neither awaited nor given a callback.  The
    service does not wait for it, so whether the store has applied it by
    the time the service goes on is not the service's to say: [ran] tells
    which. *)
Definition unawaited (ran : bool) (q : M unit) : M unit :=
  if ran then q else ret tt.

(** ** The service: [src/services/auth.service.js] *)

Section Service.
Context {jws : JwsLib} {bcrypt : BcryptLib} (env : Env).

(** The redacted user view of the returned credentials. *)
Definition public_user (u : User.t) : jsobj :=
  <["id" := User.read u "id"]>
    (<["email" := User.read u "email"]>
       (<["name" := User.read u "name"]> ∅)).

(** [generateCredentials(user)], called at clock reading [now] (in
    milliseconds).  [user] is a document or [null]; reading [user.id] of
    [null] throws before anything is signed or stored. *)
Definition generateCredentials (user : option User.t) (now : Z)
    : M Credentials.t :=
  match user with
  | None => throw (TypeError "id")
  | Some u =>
      let token :=
        jwt_sign {["id" := User.read u "id"]} (ACCESS_TOKEN_SECRET env)
                 7200 now in
      let refreshToken :=
        jwt_sign {["id" := User.read u "id"]} (REFRESH_TOKEN_SECRET env)
                 604800 now in
      let tokenData :=
        {| TokenData.accessToken := token;
           TokenData.accessTokenExpiresAt := now + 7200000;
           TokenData.refreshToken := refreshToken;
           TokenData.refreshTokenExpiresAt := now + 604800000;
           TokenData.user := u |} in
      TokenModel_create tokenData ;;;
      ret {| Credentials.accessToken := token;
             Credentials.refreshToken := refreshToken;
             Credentials.user := public_user u |}
  end.

(** [refreshToken(refreshToken)].  [ran] is the fate of the deletion the
    function starts and does not wait for. *)
Definition refreshToken (refreshToken : string) (now : Z) (ran : bool)
    : M Credentials.t :=
  token <- lift (jwt_verify refreshToken (REFRESH_TOKEN_SECRET env) now) ;;
  unawaited ran (TokenModel_deleteMany refreshToken) ;;;
  user <- UserModel_findById (get token "id") ;;
  generateCredentials user now.

(** [login(email, password)]. *)
Definition login (email password : string) (now : Z) : M Credentials.t :=
  user <- UserModel_findOne email ;;
  match user with
  | None => throw (Error "User not found")
  | Some u =>
      if bcrypt_compare password (User.password u)
      then generateCredentials (Some u) now
      else throw (Error "Invalid password")
  end.

(** [logout(refreshToken)]. *)
Definition logout (refreshToken : string) (ran : bool) : M unit :=
  unawaited ran (TokenModel_deleteMany refreshToken).

(** [register(email, password, role, firstname, lastname)].  [oid] is the
    identifier the store gives the new document and [salt] the salt the
    hash draws. *)
Definition register (email password role firstname lastname : string)
    (oid salt : string) (now : Z) : M Credentials.t :=
  user <- UserModel_create
            {| User.id := oid;
               User.email := email;
               User.password := bcrypt_hash password 10 salt;
               User.role := role;
               User.firstname := firstname;
               User.lastname := lastname |} ;;
  generateCredentials (Some user) now.

(** [verifyToken(token)] and [verifyRefreshToken(token)]. *)
Definition verifyToken (token : string) (now : Z) : M jsobj :=
  lift (jwt_verify token (ACCESS_TOKEN_SECRET env) now).

Definition verifyRefreshToken (token : string) (now : Z) : M jsobj :=
  lift (jwt_verify token (REFRESH_TOKEN_SECRET env) now).

(** [verifyUser(token)]. *)
Definition verifyUser (token : string) : M User.t :=
  tokenData <- TokenModel_findOne token ;;
  match tokenData with
  | None => throw (Error "Invalid token")
  | Some d => ret (TokenData.user d)
  end.

(** [validateRole(token, role)]. *)
Definition validateRole (token role : string) : M User.t :=
  tokenData <- TokenModel_findOne token ;;
  match tokenData with
  | None => throw (Error "Invalid token")
  | Some d =>
      if strict_ne (User.read (TokenData.user d) "role") (JStr role)
      then throw (Error "Invalid role")
      else ret (TokenData.user d)
  end.

(** [updatePassword(token, password)]; assigning to a property of [null]
    throws. *)
Definition updatePassword (token password : string) (salt : string)
    : M bool :=
  tokenData <- TokenModel_findOne token ;;
  match tokenData with
  | None => throw (Error "Invalid token")
  | Some d =>
      user <- UserModel_findById (User.read (TokenData.user d) "id") ;;
      match user with
      | None => throw (TypeError "password")
      | Some u =>
          UserModel_save (User.set_password u (bcrypt_hash password 10 salt)) ;;;
          ret true
      end
  end.

(** The four fields [updateUser] copies from its second argument. *)
Record UserPatch : Type := {
  patch_email : string;
  patch_role : string;
  patch_firstname : string;
  patch_lastname : string
}.

(** [updateUser(token, user)]. *)
Definition updateUser (token : string) (user : UserPatch) : M bool :=
  tokenData <- TokenModel_findOne token ;;
  match tokenData with
  | None => throw (Error "Invalid token")
  | Some d =>
      userInstance <- UserModel_findById (User.read (TokenData.user d) "id") ;;
      match userInstance with
      | None => throw (TypeError "email")
      | Some u =>
          UserModel_save
            {| User.id := User.id u;
               User.email := patch_email user;
               User.password := User.password u;
               User.role := patch_role user;
               User.firstname := patch_firstname user;
               User.lastname := patch_lastname user |} ;;;
          ret true
      end
  end.

(** [deleteUser(token)]. *)
Definition deleteUser (token : string) : M bool :=
  tokenData <- TokenModel_findOne token ;;
  match tokenData with
  | None => throw (Error "Invalid token")
  | Some d =>
      UserModel_deleteOne (User.read (TokenData.user d) "id") ;;;
      ret true
  end.

End Service.

(** ** The access control middleware *)

Module Request.

(** What the middleware reads and writes of a request: its headers and the
    [user] property, [undefined] until [isAuthenticated] sets it. *)
Record t : Type := mk {
  headers : gmap string string;
  user : option jsobj
}.

End Request.

(** How a middleware function ends: it calls [next()], it sends a response
    with a status and a body, or it throws. *)
Inductive outcome : Type :=
  | Next (req : Request.t)
  | Send (status : Z) (body : string)
  | Raise (e : exn).

(** [a || b] on header values: the empty string and [undefined] are
    falsy. *)
Definition js_or (a b : option string) : option string :=
  match a with
  | Some "" | None => b
  | Some _ => a
  end.

(** [!token]. *)
Definition js_not (token : option string) : bool :=
  match token with
  | Some "" | None => true
  | Some _ => false
  end.

(** [req.headers['x-access-token'] || req.headers['authorization']]. *)
Definition header_token (req : Request.t) : option string :=
  js_or (Request.headers req !! "x-access-token")
        (Request.headers req !! "authorization").

Section Middleware.
Context {jws : JwsLib} (env : Env).

(** [isAuthenticated(req, res, next)] at clock reading [now].  Past the
    [!token] check the token is a non-empty string, and it is handed to
    [jwt.verify] as it is. *)
Definition isAuthenticated (req : Request.t) (now : Z) : outcome :=
  let token := header_token req in
  if js_not token then Send 401 "Access Denied: No Token Provided!"
  else
    match jwt_verify (default "" token) (ACCESS_TOKEN_SECRET env) now with
    | Ok claims =>
        Next {| Request.headers := Request.headers req;
                Request.user := Some claims |}
    | Throw _ => Send 400 "Invalid Token"
    end.

(** [hasRole(role)(req, res, next)]; reading [req.user.role] throws when
    [req.user] is [undefined]. *)
Definition hasRole (role : string) (req : Request.t) : outcome :=
  match Request.user req with
  | None => Raise (TypeError "role")
  | Some user =>
      if strict_ne (get user "role") (JStr role)
      then Send 403 "Access Denied: You dont have correct role"
      else Next req
  end.

(** A route guarded by [isAuthenticated, hasRole(role)], as the router
    chains them: the second runs on the request the first passed on. *)
Definition guarded (role : string) (req : Request.t) (now : Z) : outcome :=
  match isAuthenticated req now with
  | Next req' => hasRole role req'
  | stop => stop
  end.

End Middleware.

(** ** Notions the statements below are written with *)

(** The claims of a token the service signs for user [u]: the subject
    identifier and the two time stamps, nothing else. *)
Definition issued_claims (u : User.t) (expiresIn now : Z) : jsobj :=
  <["exp" := JNum (clock now + expiresIn)]>
    (<["iat" := JNum (clock now)]> {["id" := JStr (User.id u)]}).

(** The token records left once the deletion [refreshToken] starts has or
    has not run. *)
Definition after_deletion (refreshToken : string) (ran : bool) (s : Store)
    : Store :=
  snd (unawaited ran (TokenModel_deleteMany refreshToken) s).

(** The three operations that change or delete the user behind a token. *)
Inductive user_op : Type :=
  | OpUpdateUser (token : string) (user : UserPatch)
  | OpUpdatePassword (token password salt : string)
  | OpDeleteUser (token : string).

Section Operations.
Context {bcrypt : BcryptLib}.

Definition run_op (op : user_op) : M bool :=
  match op with
  | OpUpdateUser token user => updateUser token user
  | OpUpdatePassword token password salt => updatePassword token password salt
  | OpDeleteUser token => deleteUser token
  end.

(** The store after a sequence of such operations, failed ones included. *)
Definition run_ops (ops : list user_op) (s : Store) : Store :=
  fold_left (fun s op => snd (run_op op s)) ops s.

End Operations.

(** ** An executable instance of the two libraries

    A small signing primitive and hash that satisfy the contracts above, so
    that the service can be run on concrete requests. *)

Module Mock.

(** A positive number written in binary, least significant digit first. *)
Fixpoint bits_of_pos (p : positive) : string :=
  match p with
  | xH => ""
  | xO q => String "0"%char (bits_of_pos q)
  | xI q => String "1"%char (bits_of_pos q)
  end.

Fixpoint pos_of_bits (s : string) : option positive :=
  match s with
  | "" => Some xH
  | String c r =>
      if Ascii.eqb c "0"%char then xO <$> pos_of_bits r
      else if Ascii.eqb c "1"%char then xI <$> pos_of_bits r
      else None
  end.

(** A token is the letter J followed by the binary code of the payload
    and the key. *)
Definition sign (p : jsobj) (k : string) : string :=
  String "J"%char (bits_of_pos (encode (p, k))).

Definition open (t k : string) : option jsobj :=
  match t with
  | String c bits =>
      if Ascii.eqb c "J"%char then
        match pos_of_bits bits ≫= decode with
        | Some (p, k') => if String.eqb k k' then Some p else None
        | None => None
        end
      else None
  | "" => None
  end.

Lemma pos_of_bits_of_pos p : pos_of_bits (bits_of_pos p) = Some p.
Proof. induction p as [q IH|q IH|]; simpl; rewrite ?IH; reflexivity. Qed.

Lemma open_sign p k : open (sign p k) k = Some p.
Proof.
  unfold open, sign. rewrite Ascii.eqb_refl, pos_of_bits_of_pos. simpl.
  rewrite decode_encode, String.eqb_refl. reflexivity.
Qed.

Lemma open_empty k : open "" k = None.
Proof. reflexivity. Qed.

Lemma pos_of_bits_blank a b : pos_of_bits (a +:+ " " +:+ b) = None.
Proof.
  induction a as [|c a IH]; simpl; [reflexivity|].
  rewrite IH. destruct (Ascii.eqb c "0"%char), (Ascii.eqb c "1"%char); reflexivity.
Qed.

Lemma open_no_blank t k p :
  open t k = Some p -> forall a b, t <> a +:+ " " +:+ b.
Proof.
  intros Hopen a b ->. unfold open in Hopen.
  destruct a as [|c a]; simpl in Hopen; [discriminate|].
  destruct (Ascii.eqb c "J"%char); [|discriminate].
  rewrite pos_of_bits_blank in Hopen. discriminate.
Qed.

#[export] Instance jws : JwsLib := {
  jws_sign := sign;
  jws_open := open;
  jws_open_sign := open_sign;
  jws_open_empty := open_empty;
  jws_no_blank := open_no_blank
}.

Definition hash (data : string) (rounds : Z) (salt : string) : string :=
  salt +:+ "$" +:+ data.

Fixpoint is_suffix (s t : string) : bool :=
  String.eqb s t ||
  match t with
  | "" => false
  | String _ t' => is_suffix s t'
  end.

Definition compare (data hashed : string) : bool :=
  is_suffix ("$" +:+ data) hashed.

Lemma is_suffix_app s a : is_suffix s (a +:+ s) = true.
Proof.
  induction a as [|c a IH]; simpl.
  - destruct s; simpl; rewrite ?Ascii.eqb_refl, ?String.eqb_refl; reflexivity.
  - rewrite IH. apply orb_true_r.
Qed.

Lemma compare_hash data rounds salt :
  compare data (hash data rounds salt) = true.
Proof. apply is_suffix_app. Qed.

#[export] Instance bcrypt : BcryptLib := {
  bcrypt_hash := hash;
  bcrypt_compare := compare;
  bcrypt_compare_hash := compare_hash
}.

Definition env : Env :=
  {| ACCESS_TOKEN_SECRET := "access-secret";
     REFRESH_TOKEN_SECRET := "refresh-secret" |}.

End Mock.

(** ** Concrete requests against the executable instance *)

Module Scenario.
Import Mock.

(** Clock readings, in milliseconds. *)
Definition t0 : Z := 1700000000000.
Definition t1 : Z := 1700000060000.
Definition t2 : Z := 1700000120000.
Definition t3 : Z := 1700000180000.

Definition empty_store : Store := {| users := []; tokens := [] |}.

(** An administrator registers, then logs in a minute later. *)
Definition registered : result Credentials.t * Store :=
  register env "ann@example.com" "pw123" "admin" "Ann" "Lee"
           "64a1f0c2e4b0a1b2c3d4e5f6" "salt1" t0 empty_store.

Definition s1 : Store := snd registered.

Definition ann : User.t :=
  {| User.id := "64a1f0c2e4b0a1b2c3d4e5f6";
     User.email := "ann@example.com";
     User.password := hash "pw123" 10 "salt1";
     User.role := "admin";
     User.firstname := "Ann";
     User.lastname := "Lee" |}.

Definition logged_in : result Credentials.t * Store :=
  login env "ann@example.com" "pw123" t1 s1.

Definition s2 : Store := snd logged_in.

Definition creds2 : Credentials.t :=
  match fst logged_in with
  | Ok c => c
  | Throw _ => Credentials.mk "" "" ∅
  end.

(** A request that carries the access token of that login. *)
Definition admin_request : Request.t :=
  {| Request.headers := {["x-access-token" := Credentials.accessToken creds2]};
     Request.user := None |}.

(** The token record that login stored. *)
Definition login_record : TokenData.t :=
  {| TokenData.accessToken := Credentials.accessToken creds2;
     TokenData.accessTokenExpiresAt := t1 + 7200000;
     TokenData.refreshToken := Credentials.refreshToken creds2;
     TokenData.refreshTokenExpiresAt := t1 + 604800000;
     TokenData.user := ann |}.

(** A request that carries the same token behind a scheme prefix, and one
    whose token header is empty. *)
Definition bearer_request : Request.t :=
  {| Request.headers :=
       {["authorization" := "Bearer " +:+ Credentials.accessToken creds2]};
     Request.user := None |}.

Definition empty_header_request : Request.t :=
  {| Request.headers := {["x-access-token" := ""]};
     Request.user := None |}.

(** The password is changed with the access token of the login: to a
    different one, or to the one it already was. *)
Definition password_changed : result bool * Store :=
  updatePassword (Credentials.accessToken creds2) "pw456" "salt2" s2.

Definition password_kept : result bool * Store :=
  updatePassword (Credentials.accessToken creds2) "pw123" "salt2" s2.

(** The refresh token of that login is presented twice. *)
Definition refreshed_once : result Credentials.t * Store :=
  refreshToken env (Credentials.refreshToken creds2) t2 true s2.

Definition creds3 : Credentials.t :=
  match fst refreshed_once with
  | Ok c => c
  | Throw _ => Credentials.mk "" "" ∅
  end.

Definition s3 : Store := snd refreshed_once.

Definition refreshed_twice : result Credentials.t * Store :=
  refreshToken env (Credentials.refreshToken creds2) t3 true s3.

(** The account is deleted with the access token of the login, and the
    refresh token of the login is presented afterwards. *)
Definition deleted : result bool * Store :=
  deleteUser (Credentials.accessToken creds2) s2.

Definition s2_deleted : Store := snd deleted.

End Scenario.

(** * Properties *)

(** ** Facts about [jwt.sign] and [jwt.verify] *)

Section JwtFacts.
Context {jws : JwsLib}.

Lemma jws_sign_nonempty p k : jws_sign p k <> "".
Proof.
  intros Hempty. pose proof (jws_open_sign p k) as Hopen.
  rewrite Hempty, jws_open_empty in Hopen. discriminate.
Qed.

Lemma json_fields_subject u :
  json_fields {["id" := User.read u "id"]} = {["id" := JStr (User.id u)]}.
Proof.
  unfold json_fields. change (User.read u "id") with (JStr (User.id u)).
  apply map_filter_singleton_True. discriminate.
Qed.

Lemma jwt_sign_subject u k expiresIn now :
  jwt_sign {["id" := User.read u "id"]} k expiresIn now
  = jws_sign (issued_claims u expiresIn now) k.
Proof. unfold jwt_sign. rewrite json_fields_subject. reflexivity. Qed.

Lemma issued_claims_get u expiresIn now :
  get (issued_claims u expiresIn now) "id" = JStr (User.id u)
  /\ get (issued_claims u expiresIn now) "exp" = JNum (clock now + expiresIn)
  /\ get (issued_claims u expiresIn now) "nbf" = JUndefined
  /\ get (issued_claims u expiresIn now) "role" = JUndefined.
Proof. unfold get, issued_claims. repeat split; by simplify_map_eq. Qed.

(** A token the service signed verifies, under the key it was signed with,
    until the clock reaches its expiry. *)
Lemma jwt_verify_issued u k expiresIn now now' :
  clock now' < clock now + expiresIn ->
  jwt_verify (jwt_sign {["id" := User.read u "id"]} k expiresIn now) k now'
  = Ok (issued_claims u expiresIn now).
Proof.
  intros Hfresh. rewrite jwt_sign_subject. unfold jwt_verify.
  rewrite jws_open_sign. unfold check_nbf, check_exp.
  destruct (issued_claims_get u expiresIn now) as (_ & -> & -> & _).
  destruct (Z.leb_spec (clock now + expiresIn) (clock now')); [lia|reflexivity].
Qed.

(** A string with a blank in it never verifies. *)
Lemma jwt_verify_blank a b k now :
  jwt_verify (a +:+ " " +:+ b) k now = Throw (JsonWebTokenError "invalid token").
Proof.
  unfold jwt_verify.
  destruct (jws_open (a +:+ " " +:+ b) k) as [p|] eqn:Hopen; [|reflexivity].
  exfalso. exact (jws_no_blank _ _ _ Hopen a b eq_refl).
Qed.

End JwtFacts.

(** ** What an issuance returns and stores *)

Section IssuanceFacts.
Context {jws : JwsLib} (env : Env).

Lemma generateCredentials_issues u now s :
  generateCredentials env (Some u) now s
  = (Ok {| Credentials.accessToken :=
             jwt_sign {["id" := User.read u "id"]} (ACCESS_TOKEN_SECRET env)
                      7200 now;
           Credentials.refreshToken :=
             jwt_sign {["id" := User.read u "id"]} (REFRESH_TOKEN_SECRET env)
                      604800 now;
           Credentials.user := public_user u |},
     set_tokens (fun l => (l ++
       [ {| TokenData.accessToken :=
              jwt_sign {["id" := User.read u "id"]} (ACCESS_TOKEN_SECRET env)
                       7200 now;
            TokenData.accessTokenExpiresAt := now + 7200000;
            TokenData.refreshToken :=
              jwt_sign {["id" := User.read u "id"]} (REFRESH_TOKEN_SECRET env)
                       604800 now;
            TokenData.refreshTokenExpiresAt := now + 604800000;
            TokenData.user := u |} ])%list) s).
Proof. reflexivity. Qed.

End IssuanceFacts.

(** ** The role gate on tokens the service issues *)

Section RoleGate.
Context {jws : JwsLib} (env : Env).

Lemma js_not_some_nonempty o t :
  o = Some t -> t <> "" -> js_not o = false.
Proof. intros -> Hne. destruct t; [congruence|reflexivity]. Qed.

(** [isAuthenticated] on a request whose token header holds an access
    token the service issued for [u], before the token expires: the decoded
    claims it attaches are those signed at issuance. *)
Lemma isAuthenticated_issued u now now' req :
  header_token req
  = Some (jwt_sign {["id" := User.read u "id"]} (ACCESS_TOKEN_SECRET env)
                   7200 now) ->
  clock now' < clock now + 7200 ->
  isAuthenticated env req now'
  = Next {| Request.headers := Request.headers req;
            Request.user := Some (issued_claims u 7200 now) |}.
Proof.
  intros Hhdr Hfresh. unfold isAuthenticated.
  rewrite (js_not_some_nonempty _ _ Hhdr).
  - rewrite Hhdr. simpl. rewrite jwt_verify_issued by exact Hfresh. reflexivity.
  - rewrite jwt_sign_subject. apply jws_sign_nonempty.
Qed.

(** C1, as the code has it: a request that carries an access token issued
    by [generateCredentials] for a user [u] passes [isAuthenticated] with
    claims that hold the user's id and no role, and the role gate then
    answers 403 whatever role is required, the user's own role included. *)
Theorem guarded_rejects_issued_token
    (u : User.t) (now now' : Z) (s s' : Store) (creds : Credentials.t)
    (req : Request.t) (role : string) :
  generateCredentials env (Some u) now s = (Ok creds, s') ->
  header_token req = Some (Credentials.accessToken creds) ->
  clock now' < clock now + 7200 ->
  (exists claims,
      isAuthenticated env req now'
      = Next {| Request.headers := Request.headers req;
                Request.user := Some claims |}
      /\ get claims "id" = JStr (User.id u)
      /\ get claims "role" = JUndefined)
  /\ guarded env role req now'
     = Send 403 "Access Denied: You dont have correct role".
Proof.
  intros Hissue Hhdr Hfresh.
  rewrite generateCredentials_issues in Hissue.
  injection Hissue as <- _. simpl in Hhdr.
  pose proof (isAuthenticated_issued u now now' req Hhdr Hfresh) as Hauth.
  destruct (issued_claims_get u 7200 now) as (Hid & _ & _ & Hrole).
  split.
  - exists (issued_claims u 7200 now). auto.
  - unfold guarded. rewrite Hauth. unfold hasRole. simpl.
    rewrite Hrole. reflexivity.
Qed.

End RoleGate.

Lemma guarded_rejects_issued_token_witness :
  generateCredentials (jws := Mock.jws) Mock.env (Some Scenario.ann)
    Scenario.t1 Scenario.s1
  = (Ok Scenario.creds2, Scenario.s2)
  /\ User.role Scenario.ann = "admin"
  /\ guarded (jws := Mock.jws) Mock.env "admin" Scenario.admin_request
       Scenario.t2
     = Send 403 "Access Denied: You dont have correct role".
Proof.
  assert (Hissue :
    generateCredentials (jws := Mock.jws) Mock.env (Some Scenario.ann)
      Scenario.t1 Scenario.s1
    = (Ok Scenario.creds2, Scenario.s2)) by (vm_compute; reflexivity).
  split; [exact Hissue|]. split; [reflexivity|].
  apply (guarded_rejects_issued_token (jws := Mock.jws) Mock.env
           Scenario.ann Scenario.t1 Scenario.t2 Scenario.s1 Scenario.s2
           Scenario.creds2 Scenario.admin_request "admin" Hissue).
  - vm_compute; reflexivity.
  - vm_compute; reflexivity.
Defined.

(** ** Refreshing *)

Section Refresh.
Context {jws : JwsLib} {bcrypt : BcryptLib} (env : Env).

Lemma after_deletion_users rt ran s : users (after_deletion rt ran s) = users s.
Proof. destruct ran; reflexivity. Qed.

Lemma after_deletion_tokens rt ran s :
  tokens (after_deletion rt ran s)
  = if ran
    then List.filter (fun d => negb (has_refreshToken rt d)) (tokens s)
    else tokens s.
Proof. destruct ran; reflexivity. Qed.

(** Past a successful verification, [refreshToken] is an issuance for
    whatever [findById] gives for the token's [id] claim. *)
Lemma refreshToken_verified rt now ran s claims :
  jwt_verify rt (REFRESH_TOKEN_SECRET env) now = Ok claims ->
  refreshToken env rt now ran s
  = generateCredentials env
      (match get claims "id" with
       | JStr i => List.find (has_id i) (users s)
       | _ => None
       end)
      now (after_deletion rt ran s).
Proof.
  intros Hverify. unfold refreshToken, bind, lift. rewrite Hverify.
  destruct ran; reflexivity.
Qed.

Lemma refreshToken_throws rt now ran s e :
  jwt_verify rt (REFRESH_TOKEN_SECRET env) now = Throw e ->
  refreshToken env rt now ran s = (Throw e, s).
Proof.
  intros Hverify. unfold refreshToken, bind, lift. rewrite Hverify.
  reflexivity.
Qed.

Lemma generateCredentials_users user now s r s' :
  generateCredentials env user now s = (r, s') -> users s' = users s.
Proof.
  destruct user as [u|].
  - rewrite generateCredentials_issues. intros [= _ <-]. reflexivity.
  - intros [= _ <-]. reflexivity.
Qed.

Lemma generateCredentials_ok_some user now s creds s' :
  generateCredentials env user now s = (Ok creds, s') -> exists u, user = Some u.
Proof. destruct user as [u|]; [eauto|discriminate]. Qed.

(** What a successful [login] tells: the user it found, and the refresh
    token it returned. *)
Lemma login_ok email password now s creds s' :
  login env email password now s = (Ok creds, s') ->
  exists u,
    List.find (has_email email) (users s) = Some u
    /\ Credentials.refreshToken creds
       = jwt_sign {["id" := User.read u "id"]} (REFRESH_TOKEN_SECRET env)
                  604800 now
    /\ users s' = users s.
Proof.
  unfold login, bind, UserModel_findOne, gets.
  destruct (List.find (has_email email) (users s)) as [u|]; [|discriminate].
  destruct (bcrypt_compare password (User.password u)); [|discriminate].
  rewrite generateCredentials_issues. intros [= <- <-].
  exists u. auto.
Qed.

(** A token that carries the claims signed at issuance opens to them at
    any clock reading at which it verifies. *)
Lemma jwt_verify_issued_inv u k expiresIn now now' claims :
  jwt_verify (jwt_sign {["id" := User.read u "id"]} k expiresIn now) k now'
  = Ok claims ->
  claims = issued_claims u expiresIn now.
Proof.
  rewrite jwt_sign_subject. unfold jwt_verify. rewrite jws_open_sign.
  destruct (check_nbf _ _); [discriminate|].
  destruct (check_exp _ _); [discriminate|].
  congruence.
Qed.

(** C2, as the code has it: a refresh token obtained from a login and
    already used for one successful refresh is accepted again, at any
    clock reading before its expiry and whether or not the deletion of
    the first refresh has run; the second call returns a token pair too. *)
Theorem refreshToken_replay
    (email password : string) (now now1 now2 : Z) (ran1 ran2 : bool)
    (s s1 s2 : Store) (creds creds1 : Credentials.t) :
  login env email password now s = (Ok creds, s1) ->
  refreshToken env (Credentials.refreshToken creds) now1 ran1 s1
  = (Ok creds1, s2) ->
  clock now2 < clock now + 604800 ->
  exists creds2 s3,
    refreshToken env (Credentials.refreshToken creds) now2 ran2 s2
    = (Ok creds2, s3).
Proof.
  intros Hlogin Hfirst Hfresh.
  destruct (login_ok _ _ _ _ _ _ Hlogin) as (u & _ & Htoken & _).
  rewrite Htoken in Hfirst |- *. clear Htoken.
  destruct (issued_claims_get u 604800 now) as (Hid & _).
  (* the first call verified the token and found the user *)
  destruct (jwt_verify
              (jwt_sign {["id" := User.read u "id"]} (REFRESH_TOKEN_SECRET env)
                        604800 now)
              (REFRESH_TOKEN_SECRET env) now1) as [claims|e] eqn:Hverify1.
  2:{ rewrite (refreshToken_throws _ _ _ _ _ Hverify1) in Hfirst.
      discriminate. }
  rewrite (refreshToken_verified _ _ _ _ _ Hverify1) in Hfirst.
  rewrite (jwt_verify_issued_inv _ _ _ _ _ _ Hverify1), Hid in Hfirst.
  destruct (generateCredentials_ok_some _ _ _ _ _ Hfirst) as [u' Hfound].
  apply generateCredentials_users in Hfirst.
  rewrite after_deletion_users in Hfirst.
  (* the second call sees the same users and verifies the same token *)
  rewrite (refreshToken_verified _ now2 ran2 s2 _
             (jwt_verify_issued u _ 604800 now now2 Hfresh)).
  rewrite Hid, Hfirst, Hfound, generateCredentials_issues. eauto.
Qed.

(** C3, as the code has it: when the refresh token verifies and its [id]
    claim resolves to no user, [refreshToken] calls [generateCredentials]
    on [null]; what is thrown is the [TypeError] of reading [null.id],
    not the error of a user that was not found.  No token record is added:
    the records left are those the deletion left. *)
Theorem refreshToken_unknown_subject
    (rt : string) (now : Z) (ran : bool) (s : Store) (claims : jsobj) :
  jwt_verify rt (REFRESH_TOKEN_SECRET env) now = Ok claims ->
  fst (UserModel_findById (get claims "id") s) = Ok None ->
  exists s',
    refreshToken env rt now ran s = (Throw (TypeError "id"), s')
    /\ kind_of (TypeError "id") <> UserNotFound
    /\ users s' = users s
    /\ tokens s'
       = if ran
         then List.filter (fun d => negb (has_refreshToken rt d)) (tokens s)
         else tokens s.
Proof.
  intros Hverify Hnone. exists (after_deletion rt ran s).
  rewrite (refreshToken_verified _ _ _ _ _ Hverify).
  unfold UserModel_findById, gets in Hnone. simpl in Hnone.
  injection Hnone as ->.
  split; [reflexivity|]. split; [discriminate|].
  split; [apply after_deletion_users|apply after_deletion_tokens].
Qed.

End Refresh.

Lemma refreshToken_replay_witness :
  login (jws := Mock.jws) (bcrypt := Mock.bcrypt) Mock.env
        "ann@example.com" "pw123" Scenario.t1 Scenario.s1
  = (Ok Scenario.creds2, Scenario.s2)
  /\ Scenario.refreshed_once = (Ok Scenario.creds3, Scenario.s3)
  /\ length (tokens Scenario.s3) = 2%nat
  /\ exists creds s, Scenario.refreshed_twice = (Ok creds, s).
Proof.
  assert (Hlogin :
    login (jws := Mock.jws) (bcrypt := Mock.bcrypt) Mock.env
          "ann@example.com" "pw123" Scenario.t1 Scenario.s1
    = (Ok Scenario.creds2, Scenario.s2)) by (vm_compute; reflexivity).
  assert (Hfirst : Scenario.refreshed_once = (Ok Scenario.creds3, Scenario.s3))
    by (vm_compute; reflexivity).
  split; [exact Hlogin|]. split; [exact Hfirst|].
  split; [vm_compute; reflexivity|].
  unfold Scenario.refreshed_twice.
  apply (refreshToken_replay (jws := Mock.jws) (bcrypt := Mock.bcrypt)
           Mock.env "ann@example.com" "pw123" Scenario.t1 Scenario.t2
           Scenario.t3 true true Scenario.s1 Scenario.s2 Scenario.s3
           Scenario.creds2 Scenario.creds3 Hlogin Hfirst).
  vm_compute; reflexivity.
Defined.

Lemma refreshToken_unknown_subject_witness :
  jwt_verify (jws := Mock.jws) (Credentials.refreshToken Scenario.creds2)
             (REFRESH_TOKEN_SECRET Mock.env) Scenario.t2
  = Ok (issued_claims Scenario.ann 604800 Scenario.t1)
  /\ users Scenario.s2_deleted = []
  /\ exists s',
       refreshToken (jws := Mock.jws) Mock.env
         (Credentials.refreshToken Scenario.creds2) Scenario.t2 true
         Scenario.s2_deleted
       = (Throw (TypeError "id"), s')
       /\ length (tokens Scenario.s2_deleted) = 2%nat
       /\ length (tokens s') = 1%nat.
Proof.
  assert (Hverify :
    jwt_verify (jws := Mock.jws) (Credentials.refreshToken Scenario.creds2)
               (REFRESH_TOKEN_SECRET Mock.env) Scenario.t2
    = Ok (issued_claims Scenario.ann 604800 Scenario.t1))
    by (vm_compute; reflexivity).
  split; [exact Hverify|]. split; [vm_compute; reflexivity|].
  destruct (refreshToken_unknown_subject (jws := Mock.jws) Mock.env
              (Credentials.refreshToken Scenario.creds2) Scenario.t2 true
              Scenario.s2_deleted _ Hverify)
    as (s' & Hthrow & _ & _ & Htokens).
  - vm_compute; reflexivity.
  - exists s'. split; [exact Hthrow|]. rewrite Htokens.
    split; vm_compute; reflexivity.
Defined.

(** ** Lookups in the two collections *)

Lemma find_none_forall {A} (p : A -> bool) (l : list A) :
  Forall (fun x => p x = false) l -> List.find p l = None.
Proof.
  induction 1 as [|x l Hx _ IH]; simpl; [reflexivity|].
  rewrite Hx. exact IH.
Qed.

Lemma no_email_find email (l : list User.t) :
  Forall (fun u => User.email u <> email) l ->
  List.find (has_email email) l = None.
Proof.
  intros Hall. apply find_none_forall.
  eapply Forall_impl; [|exact Hall]. intros u Hne. simpl.
  unfold has_email. apply bool_decide_eq_false. exact Hne.
Qed.

Lemma no_accessToken_find token (l : list TokenData.t) :
  Forall (fun d => TokenData.accessToken d <> token) l ->
  List.find (has_accessToken token) l = None.
Proof.
  intros Hall. apply find_none_forall.
  eapply Forall_impl; [|exact Hall]. intros d Hne. simpl.
  unfold has_accessToken. apply bool_decide_eq_false. exact Hne.
Qed.

Lemma strict_ne_role u role :
  strict_ne (User.read u "role") (JStr role)
  = negb (bool_decide (User.role u = role)).
Proof.
  unfold strict_ne. change (User.read u "role") with (JStr (User.role u)).
  f_equal. apply bool_decide_ext. split; congruence.
Qed.

(** ** Issuance, login and role validation *)

Section Issuance.
Context {jws : JwsLib} {bcrypt : BcryptLib} (env : Env).

Lemma login_found_valid email password now s u :
  List.find (has_email email) (users s) = Some u ->
  bcrypt_compare password (User.password u) = true ->
  login env email password now s = generateCredentials env (Some u) now s.
Proof.
  intros Hfound Hvalid. unfold login, bind, UserModel_findOne, gets.
  rewrite Hfound, Hvalid. reflexivity.
Qed.

Lemma login_found email password now s u :
  List.find (has_email email) (users s) = Some u ->
  login env email password now s
  = if bcrypt_compare password (User.password u)
    then generateCredentials env (Some u) now s
    else (Throw (Error "Invalid password"), s).
Proof.
  intros Hfound. unfold login, bind, UserModel_findOne, gets.
  rewrite Hfound. destruct (bcrypt_compare _ _); reflexivity.
Qed.

(** C4: for every user document, [generateCredentials] returns; what it
    returns holds an access token and a refresh token, each of which
    verifies under its own secret to the claims signed for that user, and
    a user view whose properties are exactly [id], [email] and [name],
    read from the document.  The view has no [password] property. *)
Theorem generateCredentials_redacted (u : User.t) (now : Z) (s : Store) :
  exists creds s',
    generateCredentials env (Some u) now s = (Ok creds, s')
    /\ jwt_verify (Credentials.accessToken creds) (ACCESS_TOKEN_SECRET env) now
       = Ok (issued_claims u 7200 now)
    /\ jwt_verify (Credentials.refreshToken creds) (REFRESH_TOKEN_SECRET env)
                  now
       = Ok (issued_claims u 604800 now)
    /\ dom (Credentials.user creds) = ({["id"; "email"; "name"]} : gset string)
    /\ get (Credentials.user creds) "id" = JStr (User.id u)
    /\ get (Credentials.user creds) "email" = JStr (User.email u)
    /\ get (Credentials.user creds) "name" = User.read u "name"
    /\ Credentials.user creds !! "password" = None.
Proof.
  rewrite generateCredentials_issues. eexists _, _. split; [reflexivity|].
  simpl.
  split; [apply jwt_verify_issued; lia|].
  split; [apply jwt_verify_issued; lia|].
  split.
  { unfold public_user. rewrite !dom_insert_L, dom_empty_L. set_solver. }
  unfold get, public_user. repeat split; by simplify_map_eq.
Qed.

(** C6: [login] throws the error of a user that was not found when no user
    document has the email; throws the error of invalid credentials when
    [findOne] gives a user and the hash comparison fails; and is the
    issuance of credentials for that user otherwise. *)
Theorem login_cases (email password : string) (now : Z) (s : Store) :
  (Forall (fun u => User.email u <> email) (users s) ->
   login env email password now s = (Throw (Error "User not found"), s)
   /\ kind_of (Error "User not found") = UserNotFound)
  /\ (forall u,
        List.find (has_email email) (users s) = Some u ->
        bcrypt_compare password (User.password u) = false ->
        login env email password now s = (Throw (Error "Invalid password"), s)
        /\ kind_of (Error "Invalid password") = InvalidCredentials)
  /\ (forall u,
        List.find (has_email email) (users s) = Some u ->
        bcrypt_compare password (User.password u) = true ->
        login env email password now s
        = generateCredentials env (Some u) now s).
Proof.
  split; [|split].
  - intros Hnone. unfold login, bind, UserModel_findOne, gets.
    rewrite (no_email_find _ _ Hnone). split; reflexivity.
  - intros u Hfound Hinvalid.
    rewrite (login_found _ _ _ _ _ Hfound), Hinvalid. split; reflexivity.
  - intros u Hfound Hvalid.
    rewrite (login_found _ _ _ _ _ Hfound), Hvalid. reflexivity.
Qed.

(** C7: [validateRole] throws the error of an invalid token when no token
    record has the access token; throws the error of an invalid role when
    [findOne] gives a record whose user's role is not the requested one;
    and returns that record's user otherwise. *)
Theorem validateRole_cases (token role : string) (s : Store) :
  (Forall (fun d => TokenData.accessToken d <> token) (tokens s) ->
   validateRole token role s = (Throw (Error "Invalid token"), s)
   /\ kind_of (Error "Invalid token") = InvalidToken)
  /\ (forall d,
        List.find (has_accessToken token) (tokens s) = Some d ->
        User.role (TokenData.user d) <> role ->
        validateRole token role s = (Throw (Error "Invalid role"), s)
        /\ kind_of (Error "Invalid role") = InvalidRole)
  /\ (forall d,
        List.find (has_accessToken token) (tokens s) = Some d ->
        User.role (TokenData.user d) = role ->
        validateRole token role s = (Ok (TokenData.user d), s)).
Proof.
  unfold validateRole, bind, TokenModel_findOne, gets.
  split; [|split].
  - intros Hnone. rewrite (no_accessToken_find _ _ Hnone). split; reflexivity.
  - intros d Hfound Hrole.
    rewrite Hfound, strict_ne_role, bool_decide_eq_false_2 by assumption.
    split; reflexivity.
  - intros d Hfound Hrole.
    rewrite Hfound, strict_ne_role, bool_decide_eq_true_2 by assumption.
    reflexivity.
Qed.

End Issuance.

Lemma login_cases_witness :
  login (jws := Mock.jws) (bcrypt := Mock.bcrypt) Mock.env
        "bob@example.com" "pw123" Scenario.t1 Scenario.s1
  = (Throw (Error "User not found"), Scenario.s1)
  /\ login (jws := Mock.jws) (bcrypt := Mock.bcrypt) Mock.env
           "ann@example.com" "pw124" Scenario.t1 Scenario.s1
     = (Throw (Error "Invalid password"), Scenario.s1)
  /\ login (jws := Mock.jws) (bcrypt := Mock.bcrypt) Mock.env
           "ann@example.com" "pw123" Scenario.t1 Scenario.s1
     = generateCredentials (jws := Mock.jws) Mock.env (Some Scenario.ann)
         Scenario.t1 Scenario.s1.
Proof.
  split; [|split].
  - apply (login_cases (jws := Mock.jws) (bcrypt := Mock.bcrypt) Mock.env
             "bob@example.com" "pw123" Scenario.t1 Scenario.s1).
    repeat constructor. discriminate.
  - apply (login_cases (jws := Mock.jws) (bcrypt := Mock.bcrypt) Mock.env
             "ann@example.com" "pw124" Scenario.t1 Scenario.s1) with Scenario.ann;
      reflexivity.
  - apply (login_cases (jws := Mock.jws) (bcrypt := Mock.bcrypt) Mock.env
             "ann@example.com" "pw123" Scenario.t1 Scenario.s1);
      reflexivity.
Defined.

Lemma validateRole_cases_witness :
  validateRole "not-a-token" "admin" Scenario.s2
  = (Throw (Error "Invalid token"), Scenario.s2)
  /\ validateRole (Credentials.accessToken Scenario.creds2) "member"
       Scenario.s2
     = (Throw (Error "Invalid role"), Scenario.s2)
  /\ validateRole (Credentials.accessToken Scenario.creds2) "admin"
       Scenario.s2
     = (Ok Scenario.ann, Scenario.s2).
Proof.
  split; [|split].
  - apply (validateRole_cases "not-a-token" "admin" Scenario.s2).
    repeat constructor; discriminate.
  - apply (validateRole_cases (Credentials.accessToken Scenario.creds2)
             "member" Scenario.s2)
      with (d := {| TokenData.accessToken :=
                      Credentials.accessToken Scenario.creds2;
                    TokenData.accessTokenExpiresAt := Scenario.t1 + 7200000;
                    TokenData.refreshToken :=
                      Credentials.refreshToken Scenario.creds2;
                    TokenData.refreshTokenExpiresAt :=
                      Scenario.t1 + 604800000;
                    TokenData.user := Scenario.ann |}).
    + vm_compute; reflexivity.
    + discriminate.
  - apply (validateRole_cases (Credentials.accessToken Scenario.creds2)
             "admin" Scenario.s2)
      with (d := {| TokenData.accessToken :=
                      Credentials.accessToken Scenario.creds2;
                    TokenData.accessTokenExpiresAt := Scenario.t1 + 7200000;
                    TokenData.refreshToken :=
                      Credentials.refreshToken Scenario.creds2;
                    TokenData.refreshTokenExpiresAt :=
                      Scenario.t1 + 604800000;
                    TokenData.user := Scenario.ann |}).
    + vm_compute; reflexivity.
    + reflexivity.
Defined.

(** ** Operations on the user behind a token *)

Lemma remove_first_other (i : string) (u : User.t) (l : list User.t) :
  User.id u <> i -> u ∈ remove_first (has_id i) l <-> u ∈ l.
Proof.
  intros Hne. induction l as [|x l IH]; simpl; [reflexivity|].
  destruct (has_id i x) eqn:Hx.
  - apply bool_decide_eq_true in Hx. rewrite elem_of_cons.
    split; [auto|]. intros [->|Hin]; [congruence|exact Hin].
  - rewrite !elem_of_cons, IH. reflexivity.
Qed.

Lemma remove_first_gone (i : string) (l : list User.t) :
  NoDup (User.id <$> l) ->
  forall u, u ∈ remove_first (has_id i) l -> User.id u <> i.
Proof.
  induction l as [|x l IH]; simpl; intros Hnodup u Hin.
  - inversion Hin.
  - apply list.NoDup_cons in Hnodup as [Hfresh Hnodup].
    destruct (has_id i x) eqn:Hx.
    + apply bool_decide_eq_true in Hx. subst i. intros Heq.
      apply Hfresh. rewrite <- Heq. apply list_elem_of_fmap_2. exact Hin.
    + apply bool_decide_eq_false in Hx.
      apply elem_of_cons in Hin as [->|Hin]; [exact Hx|].
      apply IH; assumption.
Qed.

Lemma remove_first_length (i : string) (u : User.t) (l : list User.t) :
  List.find (has_id i) l = Some u ->
  S (length (remove_first (has_id i) l)) = length l.
Proof.
  induction l as [|x l IH]; simpl; [discriminate|].
  destruct (has_id i x); [reflexivity|].
  intros Hfound. simpl. rewrite IH by exact Hfound. reflexivity.
Qed.

(** Saving a changed copy [y] of the document [u] that both a lookup by
    [p] and a lookup by [q] give: the lookup by [q] gives [y] afterwards,
    when [y] still satisfies [q]. *)
Lemma find_replace_first {A} (p q : A -> bool) (y u : A) (l : list A) :
  List.find p l = Some u ->
  List.find q l = Some u ->
  q y = true ->
  List.find q (replace_first p y l) = Some y.
Proof.
  intros Hp Hq Hy. induction l as [|x l IH]; simpl in *; [discriminate|].
  destruct (p x) eqn:Hpx.
  - simpl. rewrite Hy. reflexivity.
  - simpl. destruct (q x) eqn:Hqx.
    + injection Hq as ->. apply find_some in Hp as [_ Hpu]. congruence.
    + apply IH; assumption.
Qed.

(** With unique emails, the document a lookup by id gives is the one a
    lookup by its email gives. *)
Lemma find_own_email (i : string) (l : list User.t) (u : User.t) :
  NoDup (User.email <$> l) ->
  List.find (has_id i) l = Some u ->
  List.find (has_email (User.email u)) l = Some u.
Proof.
  induction l as [|x l IH]; simpl; [discriminate|].
  intros Hunique Hfound.
  apply list.NoDup_cons in Hunique as [Hfresh Hunique].
  destruct (has_id i x).
  - injection Hfound as ->. unfold has_email.
    rewrite bool_decide_eq_true_2 by reflexivity. reflexivity.
  - unfold has_email at 1. rewrite bool_decide_eq_false_2.
    + apply IH; assumption.
    + intros Heq. apply Hfresh. rewrite Heq.
      apply list_elem_of_fmap_2. apply find_some in Hfound as [Hin _].
      apply list_elem_of_In. exact Hin.
Qed.

Lemma remove_first_subset {A} (p : A -> bool) (x : A) (l : list A) :
  x ∈ remove_first p l -> x ∈ l.
Proof.
  induction l as [|y l IH]; simpl; [auto|].
  destruct (p y); [apply list_elem_of_further|].
  rewrite !elem_of_cons. intros [->|Hin]; auto.
Qed.

Section UserOperations.
Context {jws : JwsLib} {bcrypt : BcryptLib} (env : Env).

Lemma deleteUser_found token s d :
  List.find (has_accessToken token) (tokens s) = Some d ->
  deleteUser token s
  = (Ok true,
     set_users (remove_first (has_id (User.id (TokenData.user d)))) s).
Proof.
  intros Hfound. unfold deleteUser, bind, TokenModel_findOne, gets.
  rewrite Hfound. reflexivity.
Qed.

(** C8: with a token that resolves to a token record, [deleteUser]
    succeeds, removes from the user collection the document whose id is
    that of the record's user and no other document, and leaves the token
    collection as it was. *)
Theorem deleteUser_frame (token : string) (s : Store) (d : TokenData.t) :
  List.find (has_accessToken token) (tokens s) = Some d ->
  exists s',
    deleteUser token s = (Ok true, s')
    /\ tokens s' = tokens s
    /\ users s' = remove_first (has_id (User.id (TokenData.user d))) (users s)
    /\ (forall u, User.id u <> User.id (TokenData.user d) ->
                  u ∈ users s' <-> u ∈ users s)
    /\ (forall u, u ∈ users s' -> u ∈ users s)
    /\ (forall u, List.find (has_id (User.id (TokenData.user d))) (users s)
                  = Some u ->
                  S (length (users s')) = length (users s))
    /\ (NoDup (User.id <$> users s) ->
        forall u, u ∈ users s' -> User.id u <> User.id (TokenData.user d)).
Proof.
  intros Hfound. rewrite (deleteUser_found _ _ _ Hfound).
  eexists. split; [reflexivity|]. simpl.
  split; [reflexivity|]. split; [reflexivity|].
  split; [intros u Hne; apply remove_first_other; exact Hne|].
  split; [intros u; apply remove_first_subset|].
  split; [intros u; apply remove_first_length|].
  apply remove_first_gone.
Qed.

End UserOperations.

Lemma User_read_id u : User.read u "id" = JStr (User.id u).
Proof. reflexivity. Qed.

Lemma User_read_password u : User.read u "password" = JStr (User.password u).
Proof. reflexivity. Qed.

(** ** The user a token record carries *)

Section Snapshot.
Context {jws : JwsLib} {bcrypt : BcryptLib} (env : Env).

Lemma verifyUser_run token s :
  verifyUser token s
  = match List.find (has_accessToken token) (tokens s) with
    | Some d => (Ok (TokenData.user d), s)
    | None => (Throw (Error "Invalid token"), s)
    end.
Proof.
  unfold verifyUser, bind, TokenModel_findOne, gets.
  destruct (List.find _ _); reflexivity.
Qed.

Lemma run_op_tokens op s : tokens (snd (run_op op s)) = tokens s.
Proof.
  destruct op as [token user|token password salt|token]; simpl;
    unfold updateUser, updatePassword, deleteUser, bind, TokenModel_findOne,
      UserModel_findById, gets;
    (destruct (List.find (has_accessToken token) (tokens s)) as [d|];
     [|reflexivity]); rewrite ?User_read_id;
    try (destruct (List.find (has_id (User.id (TokenData.user d))) (users s)));
    reflexivity.
Qed.

Lemma run_ops_tokens ops s : tokens (run_ops ops s) = tokens s.
Proof.
  revert s. induction ops as [|op ops IH]; intros s; [reflexivity|].
  change (run_ops (op :: ops) s) with (run_ops ops (snd (run_op op s))).
  rewrite IH. apply run_op_tokens.
Qed.

Lemma find_app_fresh {A} (p : A -> bool) (l : list A) (x : A) :
  List.find p l = None -> p x = true -> List.find p (l ++ [x])%list = Some x.
Proof.
  intros Hnone Hx. induction l as [|y l IH]; simpl in *; [rewrite Hx; auto|].
  destruct (p y); [discriminate|auto].
Qed.

(** C9: when a token record exists for an access token, [verifyUser]
    returns the user document that record carries, password hash included,
    and keeps returning that same document after any sequence of
    [updateUser], [updatePassword] and [deleteUser] calls.  The document a
    record carries is the one [generateCredentials] was called with when it
    stored the record (for an access token no earlier record has). *)
Theorem verifyUser_issuance_snapshot
    (token : string) (s : Store) (d : TokenData.t) (ops : list user_op) :
  List.find (has_accessToken token) (tokens s) = Some d ->
  verifyUser token s = (Ok (TokenData.user d), s)
  /\ verifyUser token (run_ops ops s)
     = (Ok (TokenData.user d), run_ops ops s)
  /\ User.read (TokenData.user d) "password"
     = JStr (User.password (TokenData.user d))
  /\ (forall u now s0 creds,
        generateCredentials env (Some u) now s0 = (Ok creds, s) ->
        token = Credentials.accessToken creds ->
        List.find (has_accessToken token) (tokens s0) = None ->
        TokenData.user d = u).
Proof.
  intros Hfound. split; [|split; [|split]].
  - rewrite verifyUser_run, Hfound. reflexivity.
  - rewrite verifyUser_run, run_ops_tokens, Hfound. reflexivity.
  - reflexivity.
  - intros u now s0 creds Hissue Htoken Hfresh.
    rewrite generateCredentials_issues in Hissue.
    injection Hissue as <- <-. simpl in Htoken, Hfound.
    rewrite (find_app_fresh _ _ _ Hfresh) in Hfound.
    + injection Hfound as <-. reflexivity.
    + unfold has_accessToken. simpl. apply bool_decide_eq_true. auto.
Qed.

End Snapshot.

(** ** Changing the password, then logging in *)

Section PasswordChange.
Context {jws : JwsLib} {bcrypt : BcryptLib} (env : Env).

Lemma updatePassword_found token password salt s d u :
  List.find (has_accessToken token) (tokens s) = Some d ->
  List.find (has_id (User.id (TokenData.user d))) (users s) = Some u ->
  updatePassword token password salt s
  = (Ok true,
     set_users
       (replace_first (has_id (User.id u))
          (User.set_password u (bcrypt_hash password 10 salt))) s).
Proof.
  intros Htoken Huser.
  unfold updatePassword, bind, TokenModel_findOne, UserModel_findById, gets.
  rewrite Htoken, User_read_id, Huser. reflexivity.
Qed.

Lemma find_has_id i l u : List.find (has_id i) l = Some u -> User.id u = i.
Proof.
  intros Hfound. apply find_some in Hfound as [_ Hid].
  apply bool_decide_eq_true in Hid. exact Hid.
Qed.


End PasswordChange.

(** ** The token header *)

Section TokenHeader.
Context {jws : JwsLib} (env : Env).

Lemma isAuthenticated_no_token req now :
  js_not (header_token req) = true ->
  isAuthenticated env req now = Send 401 "Access Denied: No Token Provided!".
Proof.
  intros Hnone. unfold isAuthenticated. rewrite Hnone. reflexivity.
Qed.

Lemma isAuthenticated_token req now tok :
  header_token req = Some tok -> tok <> "" ->
  isAuthenticated env req now
  = match jwt_verify tok (ACCESS_TOKEN_SECRET env) now with
    | Ok claims =>
        Next {| Request.headers := Request.headers req;
                Request.user := Some claims |}
    | Throw _ => Send 400 "Invalid Token"
    end.
Proof.
  intros Htok Hne. unfold isAuthenticated.
  rewrite Htok. destruct tok; [congruence|reflexivity].
Qed.


End TokenHeader.



Lemma deleteUser_frame_witness :
  List.find (has_accessToken (Credentials.accessToken Scenario.creds2))
            (tokens Scenario.s2)
  = Some Scenario.login_record
  /\ users Scenario.s2 = [Scenario.ann]
  /\ exists s',
       deleteUser (Credentials.accessToken Scenario.creds2) Scenario.s2
       = (Ok true, s')
       /\ tokens s' = tokens Scenario.s2
       /\ length (tokens s') = 2%nat
       /\ users s' = [].
Proof.
  assert (Htoken :
    List.find (has_accessToken (Credentials.accessToken Scenario.creds2))
              (tokens Scenario.s2)
    = Some Scenario.login_record) by (vm_compute; reflexivity).
  split; [exact Htoken|]. split; [vm_compute; reflexivity|].
  destruct (deleteUser_frame (Credentials.accessToken Scenario.creds2)
              Scenario.s2 Scenario.login_record Htoken)
    as (s' & Hrun & Htokens & Husers & _).
  exists s'. split; [exact Hrun|]. split; [exact Htokens|].
  split; [rewrite Htokens; vm_compute; reflexivity|].
  rewrite Husers. vm_compute; reflexivity.
Defined.

Lemma verifyUser_issuance_snapshot_witness :
  generateCredentials (jws := Mock.jws) Mock.env (Some Scenario.ann)
    Scenario.t1 Scenario.s1
  = (Ok Scenario.creds2, Scenario.s2)
  /\ users
       (run_ops (bcrypt := Mock.bcrypt)
          [ OpUpdateUser (Credentials.accessToken Scenario.creds2)
              {| patch_email := "ann@example.org"; patch_role := "member";
                 patch_firstname := "Anne"; patch_lastname := "Leigh" |};
            OpUpdatePassword (Credentials.accessToken Scenario.creds2)
              "pw456" "salt2";
            OpDeleteUser (Credentials.accessToken Scenario.creds2) ]
          Scenario.s2)
     = []
  /\ fst (verifyUser (Credentials.accessToken Scenario.creds2)
            (run_ops (bcrypt := Mock.bcrypt)
               [ OpUpdateUser (Credentials.accessToken Scenario.creds2)
                   {| patch_email := "ann@example.org"; patch_role := "member";
                      patch_firstname := "Anne"; patch_lastname := "Leigh" |};
                 OpUpdatePassword (Credentials.accessToken Scenario.creds2)
                   "pw456" "salt2";
                 OpDeleteUser (Credentials.accessToken Scenario.creds2) ]
               Scenario.s2))
     = Ok Scenario.ann.
Proof.
  split; [vm_compute; reflexivity|]. split; [vm_compute; reflexivity|].
  assert (Htoken :
    List.find (has_accessToken (Credentials.accessToken Scenario.creds2))
              (tokens Scenario.s2)
    = Some Scenario.login_record) by (vm_compute; reflexivity).
  destruct (verifyUser_issuance_snapshot (jws := Mock.jws)
              (bcrypt := Mock.bcrypt) Mock.env
              (Credentials.accessToken Scenario.creds2) Scenario.s2
              Scenario.login_record
              [ OpUpdateUser (Credentials.accessToken Scenario.creds2)
                  {| patch_email := "ann@example.org"; patch_role := "member";
                     patch_firstname := "Anne"; patch_lastname := "Leigh" |};
                OpUpdatePassword (Credentials.accessToken Scenario.creds2)
                  "pw456" "salt2";
                OpDeleteUser (Credentials.accessToken Scenario.creds2) ]
              Htoken)
    as (_ & Hlater & _).
  rewrite Hlater. reflexivity.
Defined.



(** * The rest of the service, the controllers and the router *)

(** ** The controllers: [src/controllers/auth.controller.js] *)

Module Body.

(** The fields the controllers read off [req.body], a parsed JSON body in
    which each field has the type the service documents for it: strings,
    and for [user] an object with the four fields [updateUser] copies. *)
Record t : Type := mk {
  email : string;
  password : string;
  role : string;
  firstname : string;
  lastname : string;
  refreshToken : string;
  token : string;
  user : UserPatch
}.

End Body.

(** What a response carries: the text of [res.send], or the value handed
    to [res.json]; [JsonError e] is [{message: err.message}] for the caught
    [e], and [Uncaught e] what the framework answers when a middleware
    function throws. *)
Inductive payload : Type :=
  | Text (s : string)
  | JsonCredentials (c : Credentials.t)
  | JsonUser (u : User.t)
  | JsonClaims (o : jsobj)
  | JsonMessage (message : string)
  | JsonError (e : exn)
  | Uncaught (e : exn).

Record Response : Type := {
  status : Z;
  body : payload
}.

(** What a request meets besides the store: the clock, the fate of a
    deletion that is not awaited, and the identifier and salt a
    registration draws. *)
Record Ambient : Type := {
  amb_now : Z;
  amb_ran : bool;
  amb_oid : string;
  amb_salt : string
}.

Definition Handler : Type := Store -> Response * Store.

(** The shape every controller has:
    [try { r = await service(...); res.status(200).json(ok(r)) }
     catch (err) { res.status(500).json({message: err.message}) }]. *)
Definition respond {A} (service : M A) (ok : A -> payload) : Handler :=
  fun s =>
    match service s with
    | (Ok a, s') => ({| status := 200; body := ok a |}, s')
    | (Throw e, s') => ({| status := 500; body := JsonError e |}, s')
    end.

Module AuthController.
Section Controllers.
Context {jws : JwsLib} {bcrypt : BcryptLib} (env : Env).

Definition login (b : Body.t) (w : Ambient) : Handler :=
  respond (login env (Body.email b) (Body.password b) (amb_now w))
          JsonCredentials.

Definition logout (b : Body.t) (w : Ambient) : Handler :=
  respond (logout (Body.refreshToken b) (amb_ran w))
          (fun _ => JsonMessage "User logged out").

Definition refreshToken (b : Body.t) (w : Ambient) : Handler :=
  respond (refreshToken env (Body.refreshToken b) (amb_now w) (amb_ran w))
          JsonCredentials.

Definition register (b : Body.t) (w : Ambient) : Handler :=
  respond (register env (Body.email b) (Body.password b) (Body.role b)
             (Body.firstname b) (Body.lastname b) (amb_oid w) (amb_salt w)
             (amb_now w))
          JsonCredentials.

Definition verifyToken (b : Body.t) (w : Ambient) : Handler :=
  respond (verifyToken env (Body.token b) (amb_now w)) JsonClaims.

Definition verifyRefreshToken (b : Body.t) (w : Ambient) : Handler :=
  respond (verifyRefreshToken env (Body.refreshToken b) (amb_now w))
          JsonClaims.

Definition validateRole (b : Body.t) (w : Ambient) : Handler :=
  respond (validateRole (Body.token b) (Body.role b)) JsonUser.

Definition updatePassword (b : Body.t) (w : Ambient) : Handler :=
  respond (updatePassword (Body.token b) (Body.password b) (amb_salt w))
          (fun _ => JsonMessage "Password updated successfully").

Definition verifyUser (b : Body.t) (w : Ambient) : Handler :=
  respond (verifyUser (Body.token b)) JsonUser.

Definition updateUser (b : Body.t) (w : Ambient) : Handler :=
  respond (updateUser (Body.token b) (Body.user b))
          (fun _ => JsonMessage "User updated successfully").

Definition deleteUser (b : Body.t) (w : Ambient) : Handler :=
  respond (deleteUser (Body.token b))
          (fun _ => JsonMessage "User deleted successfully").

End Controllers.
End AuthController.

(** ** The router *)

(** The eleven routes of the router, by method and path. *)
Inductive route : Type :=
  | PostLogin
  | PostLogout
  | PostRegister
  | PostRefreshtoken
  | PostValidateRole
  | PostUpdatePassword
  | PostVerifyToken
  | PostVerifyRefreshToken
  | PostVerifyUser
  | PostUpdateUser
  | DeleteDeleteUser.

(** A handler behind a middleware function: it runs when the middleware
    calls [next()]; otherwise the middleware's response is the answer and
    the store is not touched. *)
Definition behind (o : outcome) (h : Handler) : Handler :=
  match o with
  | Next _ => h
  | Send st text => fun s => ({| status := st; body := Text text |}, s)
  | Raise e => fun s => ({| status := 500; body := Uncaught e |}, s)
  end.

Section Router.
Context {jws : JwsLib} {bcrypt : BcryptLib} (env : Env).

Definition handle (r : route) (req : Request.t) (b : Body.t) (w : Ambient)
    : Handler :=
  match r with
  | PostLogin => AuthController.login env b w
  | PostLogout => AuthController.logout b w
  | PostRegister => AuthController.register env b w
  | PostRefreshtoken =>
      behind (isAuthenticated env req (amb_now w))
             (AuthController.refreshToken env b w)
  | PostValidateRole =>
      behind (guarded env "admin" req (amb_now w))
             (AuthController.validateRole b w)
  | PostUpdatePassword =>
      behind (isAuthenticated env req (amb_now w))
             (AuthController.updatePassword b w)
  | PostVerifyToken =>
      behind (isAuthenticated env req (amb_now w))
             (AuthController.verifyToken env b w)
  | PostVerifyRefreshToken =>
      behind (isAuthenticated env req (amb_now w))
             (AuthController.verifyRefreshToken env b w)
  | PostVerifyUser =>
      behind (isAuthenticated env req (amb_now w))
             (AuthController.verifyUser b w)
  | PostUpdateUser =>
      behind (guarded env "admin" req (amb_now w))
             (AuthController.updateUser b w)
  | DeleteDeleteUser =>
      behind (guarded env "admin" req (amb_now w))
             (AuthController.deleteUser b w)
  end.

End Router.

(** ** Calls of the service, and stores they lead to *)

(** A call of one of the functions the service exports, with what the
    call meets of the clock, the salt and the fresh identifier. *)
Inductive call : Type :=
  | CallGenerateCredentials (user : option User.t) (now : Z)
  | CallRefreshToken (refreshToken : string) (now : Z) (ran : bool)
  | CallLogin (email password : string) (now : Z)
  | CallLogout (refreshToken : string) (ran : bool)
  | CallRegister (email password role firstname lastname oid salt : string)
                 (now : Z)
  | CallVerifyToken (token : string) (now : Z)
  | CallVerifyRefreshToken (token : string) (now : Z)
  | CallVerifyUser (token : string)
  | CallValidateRole (token role : string)
  | CallUpdatePassword (token password salt : string)
  | CallUpdateUser (token : string) (user : UserPatch)
  | CallDeleteUser (token : string).

Section Calls.
Context {jws : JwsLib} {bcrypt : BcryptLib} (env : Env).

(** The store a call leaves, whether it returned or threw. *)
Definition after_call (c : call) (s : Store) : Store :=
  match c with
  | CallGenerateCredentials user now =>
      snd (generateCredentials env user now s)
  | CallRefreshToken rt now ran => snd (refreshToken env rt now ran s)
  | CallLogin email password now => snd (login env email password now s)
  | CallLogout rt ran => snd (logout rt ran s)
  | CallRegister email password role firstname lastname oid salt now =>
      snd (register env email password role firstname lastname oid salt now s)
  | CallVerifyToken token now => snd (verifyToken env token now s)
  | CallVerifyRefreshToken token now =>
      snd (verifyRefreshToken env token now s)
  | CallVerifyUser token => snd (verifyUser token s)
  | CallValidateRole token role => snd (validateRole token role s)
  | CallUpdatePassword token password salt =>
      snd (updatePassword token password salt s)
  | CallUpdateUser token user => snd (updateUser token user s)
  | CallDeleteUser token => snd (deleteUser token s)
  end.

Definition after_calls (cs : list call) (s : Store) : Store :=
  fold_left (fun s c => after_call c s) cs s.

(** A token record as [generateCredentials] writes it: both tokens signed
    for the id of the user the record carries, at one clock reading, with
    the two expiry instants counted from that reading. *)
Definition issued_record (d : TokenData.t) : Prop :=
  exists now,
    TokenData.accessToken d
    = jwt_sign {["id" := User.read (TokenData.user d) "id"]}
               (ACCESS_TOKEN_SECRET env) 7200 now
    /\ TokenData.refreshToken d
       = jwt_sign {["id" := User.read (TokenData.user d) "id"]}
                  (REFRESH_TOKEN_SECRET env) 604800 now
    /\ TokenData.accessTokenExpiresAt d = now + 7200000
    /\ TokenData.refreshTokenExpiresAt d = now + 604800000.

End Calls.

Definition no_store : Store := {| users := []; tokens := [] |}.

(** ** Keys *)

(** A further contract of the signing primitive: what was signed under one
    key does not open under another. *)
Class JwsKeyed {jws : JwsLib} : Prop := {
  jws_open_other_key : forall p k k',
    k <> k' -> jws_open (jws_sign p k) k' = None
}.

Lemma Mock_open_other_key p k k' :
  k <> k' -> Mock.open (Mock.sign p k) k' = None.
Proof.
  intros Hne. unfold Mock.open, Mock.sign.
  rewrite Ascii.eqb_refl, Mock.pos_of_bits_of_pos. simpl.
  rewrite decode_encode.
  destruct (String.eqb_spec k' k) as [->|_]; [congruence|reflexivity].
Qed.

#[export] Instance Mock_keyed : JwsKeyed (jws := Mock.jws) := {
  jws_open_other_key := Mock_open_other_key
}.

(** * Further properties *)

(** ** Lifetime and kind of the tokens of an issuance *)

Section TokenLifetime.
Context {jws : JwsLib} (env : Env).

Lemma jwt_verify_expired u k expiresIn now now' :
  clock now + expiresIn <= clock now' ->
  jwt_verify (jwt_sign {["id" := User.read u "id"]} k expiresIn now) k now'
  = Throw TokenExpiredError.
Proof.
  intros Hlate. rewrite jwt_sign_subject. unfold jwt_verify.
  rewrite jws_open_sign. unfold check_nbf, check_exp.
  destruct (issued_claims_get u expiresIn now) as (_ & -> & -> & _).
  destruct (Z.leb_spec (clock now + expiresIn) (clock now')); [reflexivity|lia].
Qed.

Lemma clock_before now now' ms :
  now' + 1000 <= now + 1000 * ms -> clock now' < clock now + ms.
Proof. unfold clock. intros H. Z.to_euclidean_division_equations. lia. Qed.

Lemma clock_after now now' ms :
  now + 1000 * ms <= now' -> clock now + ms <= clock now'.
Proof. unfold clock. intros H. Z.to_euclidean_division_equations. lia. Qed.



End TokenLifetime.

(** ** Lists under [filter] *)

Lemma filter_subset {A} (q : A -> bool) (x : A) (l : list A) :
  x ∈ List.filter q l -> x ∈ l /\ q x = true.
Proof.
  induction l as [|y l IH]; simpl; [intros Hin; inversion Hin|].
  destruct (q y) eqn:Hy.
  - rewrite !elem_of_cons. intros [->|Hin]; [auto|]. destruct (IH Hin); auto.
  - intros Hin. destruct (IH Hin). split; [apply list_elem_of_further|]; auto.
Qed.

Lemma filter_keeps {A} (q : A -> bool) (x : A) (l : list A) :
  x ∈ l -> q x = true -> x ∈ List.filter q l.
Proof.
  intros Hin Hq. induction l as [|y l IH]; simpl; [inversion Hin|].
  apply elem_of_cons in Hin as [->|Hin].
  - rewrite Hq. apply list_elem_of_here.
  - destruct (q y); [apply list_elem_of_further|]; auto.
Qed.

Lemma filter_twice {A} (q : A -> bool) (l : list A) :
  List.filter q (List.filter q l) = List.filter q l.
Proof.
  induction l as [|y l IH]; simpl; [reflexivity|].
  destruct (q y) eqn:Hy; simpl; rewrite ?Hy, IH; reflexivity.
Qed.

Lemma find_filter_keeps {A} (p q : A -> bool) (d : A) (l : list A) :
  List.find p l = Some d -> q d = true ->
  List.find p (List.filter q l) = Some d.
Proof.
  intros Hfound Hq. induction l as [|x l IH]; simpl in *; [discriminate|].
  destruct (p x) eqn:Hpx.
  - injection Hfound as ->. rewrite Hq. simpl. rewrite Hpx. reflexivity.
  - destruct (q x); simpl; rewrite ?Hpx; auto.
Qed.

Lemma find_filter_none {A} (p q : A -> bool) (l : list A) :
  (forall x, x ∈ l -> p x = true -> q x = false) ->
  List.find p (List.filter q l) = None.
Proof.
  intros Hall. induction l as [|x l IH]; simpl; [reflexivity|].
  destruct (q x) eqn:Hqx; simpl.
  - destruct (p x) eqn:Hpx.
    + rewrite (Hall x (list_elem_of_here _ _) Hpx) in Hqx. discriminate.
    + apply IH. intros y Hin. apply Hall. apply list_elem_of_further, Hin.
  - apply IH. intros y Hin. apply Hall. apply list_elem_of_further, Hin.
Qed.

Lemma negb_has_refreshToken rt d :
  negb (has_refreshToken rt d) = true <-> TokenData.refreshToken d <> rt.
Proof.
  unfold has_refreshToken. rewrite negb_true_iff, bool_decide_eq_false.
  reflexivity.
Qed.

(** ** Logging out *)

Section Logout.
Context {jws : JwsLib} {bcrypt : BcryptLib} (env : Env).

Lemma logout_run rt ran s : logout rt ran s = (Ok tt, after_deletion rt ran s).
Proof. destruct ran; reflexivity. Qed.


End Logout.

(** ** Token records as the service writes them *)

Section IssuedRecords.
Context {jws : JwsLib} {bcrypt : BcryptLib} (env : Env).

Lemma jws_sign_inj p p' k : jws_sign p k = jws_sign p' k -> p = p'.
Proof.
  intros Heq. pose proof (jws_open_sign p k) as Hopen.
  rewrite Heq, jws_open_sign in Hopen. congruence.
Qed.

Lemma issued_claims_iat u expiresIn now :
  get (issued_claims u expiresIn now) "iat" = JNum (clock now).
Proof. unfold get, issued_claims. by simplify_map_eq. Qed.

Lemma issued_claims_inj u u' expiresIn now now' :
  issued_claims u expiresIn now = issued_claims u' expiresIn now' ->
  User.id u = User.id u' /\ clock now = clock now'.
Proof.
  intros Heq. split.
  - apply (f_equal (fun m => get m "id")) in Heq.
    destruct (issued_claims_get u expiresIn now) as (Hid & _).
    destruct (issued_claims_get u' expiresIn now') as (Hid' & _).
    congruence.
  - apply (f_equal (fun m => get m "iat")) in Heq.
    rewrite !issued_claims_iat in Heq. congruence.
Qed.

Lemma issued_claims_same u u' expiresIn now now' :
  User.id u = User.id u' -> clock now = clock now' ->
  issued_claims u expiresIn now = issued_claims u' expiresIn now'.
Proof. unfold issued_claims. intros -> ->. reflexivity. Qed.

(** Two records of the service with the same access token have the same
    refresh token. *)
Lemma same_access_same_refresh d u now :
  issued_record env d ->
  TokenData.accessToken d
  = jwt_sign {["id" := User.read u "id"]} (ACCESS_TOKEN_SECRET env) 7200 now ->
  TokenData.refreshToken d
  = jwt_sign {["id" := User.read u "id"]} (REFRESH_TOKEN_SECRET env)
             604800 now.
Proof.
  intros (n & Haccess & Hrefresh & _) Hsame.
  rewrite Haccess, !jwt_sign_subject in Hsame.
  apply jws_sign_inj, issued_claims_inj in Hsame as [Hid Hclock].
  rewrite Hrefresh, !jwt_sign_subject.
  rewrite (issued_claims_same _ _ 604800 _ _ Hid Hclock). reflexivity.
Qed.

Lemma generateCredentials_keeps_issued user now s :
  Forall (issued_record env) (tokens s) ->
  Forall (issued_record env) (tokens (snd (generateCredentials env user now s))).
Proof.
  intros Hall. destruct user as [u|]; [|exact Hall].
  rewrite generateCredentials_issues. simpl.
  apply Forall_app. split; [exact Hall|].
  constructor; [|constructor]. exists now. simpl. auto.
Qed.

Lemma after_deletion_keeps_issued rt ran s :
  Forall (issued_record env) (tokens s) ->
  Forall (issued_record env) (tokens (after_deletion rt ran s)).
Proof.
  intros Hall. rewrite after_deletion_tokens. destruct ran; [|exact Hall].
  rewrite list.Forall_forall in Hall |- *. intros d Hin.
  apply Hall. apply (filter_subset _ _ _ Hin).
Qed.

Lemma after_call_keeps_issued c s :
  Forall (issued_record env) (tokens s) ->
  Forall (issued_record env) (tokens (after_call env c s)).
Proof.
  intros Hall.
  destruct c as [user now|rt now ran|email password now|rt ran
                |email password role firstname lastname oid salt now
                |token now|token now|token|token role
                |token password salt|token user|token]; simpl.
  - apply generateCredentials_keeps_issued, Hall.
  - destruct (jwt_verify rt (REFRESH_TOKEN_SECRET env) now) as [claims|e]
      eqn:Hverify.
    + rewrite (refreshToken_verified _ _ _ _ _ _ Hverify).
      apply generateCredentials_keeps_issued, after_deletion_keeps_issued, Hall.
    + rewrite (refreshToken_throws _ _ _ _ _ _ Hverify). exact Hall.
  - unfold login, bind, UserModel_findOne, gets.
    destruct (List.find (has_email email) (users s)) as [u|]; [|exact Hall].
    destruct (bcrypt_compare password (User.password u)); [|exact Hall].
    apply generateCredentials_keeps_issued, Hall.
  - rewrite logout_run. apply after_deletion_keeps_issued, Hall.
  - unfold register, bind, UserModel_create.
    destruct (existsb _ _ || existsb _ _); [exact Hall|].
    apply generateCredentials_keeps_issued, Hall.
  - exact Hall.
  - exact Hall.
  - rewrite verifyUser_run. destruct (List.find _ _); exact Hall.
  - unfold validateRole, bind, TokenModel_findOne, gets.
    destruct (List.find _ _) as [d|]; [|exact Hall].
    destruct (strict_ne _ _); exact Hall.
  - rewrite (run_op_tokens (OpUpdatePassword token password salt) s
             : tokens (snd (updatePassword token password salt s)) = _).
    exact Hall.
  - rewrite (run_op_tokens (OpUpdateUser token user) s
             : tokens (snd (updateUser token user s)) = _).
    exact Hall.
  - rewrite (run_op_tokens (OpDeleteUser token) s
             : tokens (snd (deleteUser token s)) = _).
    exact Hall.
Qed.

Lemma after_calls_keep_issued cs s :
  Forall (issued_record env) (tokens s) ->
  Forall (issued_record env) (tokens (after_calls env cs s)).
Proof.
  revert s. induction cs as [|c cs IH]; intros s Hall; [exact Hall|].
  change (after_calls env (c :: cs) s)
    with (after_calls env cs (after_call env c s)).
  apply IH, after_call_keeps_issued, Hall.
Qed.


(** X5: in a store reached from the empty one by calls of the service, the
    user [verifyUser] resolves an access token to is the subject of that
    token: when the token also verifies, the [id] claim [verifyToken]
    decodes is the id of that user (and there is no [role] claim). *)
Theorem resolved_user_is_subject
    (cs : list call) (token : string) (u : User.t) (claims : jsobj)
    (now : Z) :
  verifyUser token (after_calls env cs no_store)
  = (Ok u, after_calls env cs no_store) ->
  verifyToken env token now (after_calls env cs no_store)
  = (Ok claims, after_calls env cs no_store) ->
  get claims "id" = JStr (User.id u) /\ get claims "role" = JUndefined.
Proof.
  rewrite verifyUser_run.
  destruct (List.find _ _) as [d|] eqn:Hfound; [|discriminate].
  intros [= <-]. unfold verifyToken, lift. intros [= Hverify].
  apply find_some in Hfound as [Hin Htoken].
  apply bool_decide_eq_true in Htoken.
  pose proof (after_calls_keep_issued cs no_store (Forall_nil _)) as Hall.
  rewrite list.Forall_forall in Hall. apply list_elem_of_In in Hin.
  destruct (Hall d Hin) as (n & Haccess & _).
  rewrite <- Htoken, Haccess in Hverify.
  apply jwt_verify_issued_inv in Hverify. subst claims.
  destruct (issued_claims_get (TokenData.user d) 7200 n) as (Hid & _ & _ & Hrole).
  auto.
Qed.

End IssuedRecords.

(** ** Logging out of a session *)

Section LogoutSession.
Context {jws : JwsLib} {bcrypt : BcryptLib} (env : Env).

Lemma login_ok_record email password now s creds s' :
  login env email password now s = (Ok creds, s') ->
  exists u d,
    Credentials.accessToken creds
    = jwt_sign {["id" := User.read u "id"]} (ACCESS_TOKEN_SECRET env) 7200 now
    /\ Credentials.refreshToken creds
       = jwt_sign {["id" := User.read u "id"]} (REFRESH_TOKEN_SECRET env)
                  604800 now
    /\ List.find (has_id (User.id u)) (users s) <> None
    /\ users s' = users s
    /\ tokens s' = (tokens s ++ [d])%list
    /\ issued_record env d.
Proof.
  unfold login, bind, UserModel_findOne, gets.
  destruct (List.find (has_email email) (users s)) as [u|] eqn:Hfound;
    [|discriminate].
  destruct (bcrypt_compare password (User.password u)); [|discriminate].
  rewrite generateCredentials_issues. intros [= <- <-].
  eexists u, _. simpl. repeat split.
  - apply find_some in Hfound as [Hin _].
    destruct (List.find (has_id (User.id u)) (users s)) eqn:Hnone;
      [discriminate|].
    pose proof (find_none _ _ Hnone u Hin) as Hfalse.
    unfold has_id in Hfalse. apply bool_decide_eq_false in Hfalse.
    congruence.
  - exists now. simpl. auto.
Qed.


End LogoutSession.

(** ** Registering, then logging in *)

Section Registration.
Context {jws : JwsLib} {bcrypt : BcryptLib} (env : Env).

(** X7: after a [register] that returned, for an email no user had, the
    store holds one more user, with the given fields and the hash of the
    password; a [login] with the same email and password returns
    credentials for that user at any later time, and a [login] with a
    password the hash comparison refuses throws the invalid-credentials
    error and leaves the store as it is. *)
Theorem register_then_login
    (email password role firstname lastname oid salt : string)
    (now now' : Z) (s s1 : Store) (creds : Credentials.t) :
  Forall (fun u => User.email u <> email) (users s) ->
  register env email password role firstname lastname oid salt now s
  = (Ok creds, s1) ->
  users s1
  = (users s ++
     [ {| User.id := oid; User.email := email;
          User.password := bcrypt_hash password 10 salt;
          User.role := role; User.firstname := firstname;
          User.lastname := lastname |} ])%list
  /\ get (Credentials.user creds) "id" = JStr oid
  /\ (exists creds' s2,
        login env email password now' s1 = (Ok creds', s2)
        /\ get (Credentials.user creds') "id" = JStr oid
        /\ get (Credentials.user creds') "email" = JStr email)
  /\ (forall other,
        bcrypt_compare other (bcrypt_hash password 10 salt) = false ->
        login env email other now' s1
        = (Throw (Error "Invalid password"), s1)).
Proof.
  intros Hfree. unfold register, bind, UserModel_create.
  destruct (existsb _ _ || existsb _ _); [discriminate|].
  rewrite generateCredentials_issues. intros [= <- <-]. simpl.
  set (doc := {| User.id := oid; User.email := email;
                 User.password := bcrypt_hash password 10 salt;
                 User.role := role; User.firstname := firstname;
                 User.lastname := lastname |}).
  set (s1 := set_tokens _ _).
  assert (Hfound : List.find (has_email email) (users s1) = Some doc).
  { simpl. apply find_app_fresh; [apply no_email_find, Hfree|].
    unfold has_email. apply bool_decide_eq_true. reflexivity. }
  split; [reflexivity|]. split; [reflexivity|]. split.
  - rewrite (login_found_valid env _ _ _ _ _ Hfound)
      by apply bcrypt_compare_hash.
    rewrite generateCredentials_issues. eexists _, _.
    split; [reflexivity|]. split; reflexivity.
  - intros other Hrefused.
    rewrite (login_found env _ _ _ _ _ Hfound). simpl. rewrite Hrefused.
    reflexivity.
Qed.

End Registration.

(** ** Lists under [replace_first] and [remove_first] *)

Lemma find_replace_first_new {A} (p q : A -> bool) (y u : A) (l : list A) :
  List.find p l = Some u ->
  (forall x, x ∈ l -> q x = true -> p x = true) ->
  q y = true ->
  List.find q (replace_first p y l) = Some y.
Proof.
  intros Hp Hall Hy. induction l as [|x l IH]; simpl in *; [discriminate|].
  destruct (p x) eqn:Hpx; simpl.
  - rewrite Hy. reflexivity.
  - destruct (q x) eqn:Hqx.
    + rewrite (Hall x (list_elem_of_here _ _) Hqx) in Hpx. discriminate.
    + apply IH; [exact Hp|].
      intros z Hin. apply Hall, list_elem_of_further, Hin.
Qed.

Lemma find_replace_first_id (i : string) (y : User.t) (l : list User.t) u :
  List.find (has_id i) l = Some u -> User.id y = i ->
  List.find (has_id i) (replace_first (has_id i) y l) = Some y.
Proof.
  intros Hfound Hy. induction l as [|x l IH]; simpl in *; [discriminate|].
  destruct (has_id i x) eqn:Hx; simpl.
  - unfold has_id. rewrite bool_decide_eq_true_2 by exact Hy. reflexivity.
  - rewrite Hx. auto.
Qed.

Lemma replace_first_length {A} (p : A -> bool) (y : A) (l : list A) :
  length (replace_first p y l) = length l.
Proof.
  induction l as [|x l IH]; simpl; [reflexivity|].
  destruct (p x); simpl; rewrite ?IH; reflexivity.
Qed.

Lemma replace_first_other (i : string) (y x : User.t) (l : list User.t) :
  User.id x <> i -> User.id y = i ->
  x ∈ replace_first (has_id i) y l <-> x ∈ l.
Proof.
  intros Hx Hy. induction l as [|z l IH]; simpl; [reflexivity|].
  destruct (has_id i z) eqn:Hz.
  - apply bool_decide_eq_true in Hz. rewrite !elem_of_cons.
    split; intros [->|Hin]; auto; congruence.
  - rewrite !elem_of_cons, IH. reflexivity.
Qed.

Lemma remove_first_absent {A} (p : A -> bool) (l : list A) :
  List.find p l = None -> remove_first p l = l.
Proof.
  induction l as [|x l IH]; simpl; [reflexivity|].
  destruct (p x); [discriminate|]. intros Hnone. rewrite IH; auto.
Qed.

Lemma find_remove_first_id (i : string) (l : list User.t) :
  NoDup (User.id <$> l) ->
  List.find (has_id i) (remove_first (has_id i) l) = None.
Proof.
  intros Hunique. apply find_none_forall, list.Forall_forall.
  intros u Hin. unfold has_id. apply bool_decide_eq_false.
  apply (remove_first_gone i l Hunique u Hin).
Qed.

Lemma find_remove_first_email (l : list User.t) (u : User.t) :
  NoDup (User.email <$> l) ->
  List.find (has_id (User.id u)) l = Some u ->
  List.find (has_email (User.email u))
            (remove_first (has_id (User.id u)) l) = None.
Proof.
  induction l as [|x l IH]; simpl; [discriminate|].
  intros Hunique Hfound.
  apply list.NoDup_cons in Hunique as [Hfresh Hunique].
  destruct (has_id (User.id u) x) eqn:Hx.
  - injection Hfound as ->. apply no_email_find, list.Forall_forall.
    intros z Hin Heq. apply Hfresh. rewrite <- Heq.
    apply list_elem_of_fmap_2, Hin.
  - simpl. unfold has_email at 1. rewrite bool_decide_eq_false_2.
    + apply IH; assumption.
    + intros Heq. apply Hfresh. rewrite Heq.
      apply list_elem_of_fmap_2. apply find_some in Hfound as [Hin _].
      apply list_elem_of_In, Hin.
Qed.

(** ** Updating the user behind a token *)

Section ProfileUpdate.
Context {jws : JwsLib} {bcrypt : BcryptLib} (env : Env).

(** The document [updateUser] saves. *)
Definition patched (u : User.t) (user : UserPatch) : User.t :=
  {| User.id := User.id u;
     User.email := patch_email user;
     User.password := User.password u;
     User.role := patch_role user;
     User.firstname := patch_firstname user;
     User.lastname := patch_lastname user |}.

Lemma updateUser_found token user s d u :
  List.find (has_accessToken token) (tokens s) = Some d ->
  List.find (has_id (User.id (TokenData.user d))) (users s) = Some u ->
  updateUser token user s
  = (Ok true,
     set_users (replace_first (has_id (User.id u)) (patched u user)) s).
Proof.
  intros Htoken Huser.
  unfold updateUser, bind, TokenModel_findOne, UserModel_findById, gets.
  rewrite Htoken, User_read_id, Huser. reflexivity.
Qed.



End ProfileUpdate.

(** ** Tokens without a record, and records without a user *)

Section Orphans.
Context {jws : JwsLib} {bcrypt : BcryptLib} (env : Env).

(** X10: an access token that no token record holds is refused by every
    operation that takes one.  [verifyUser], [updatePassword],
    [updateUser] and [deleteUser] each throw the invalid-token error and
    leave the store exactly as it was, whatever else they were given and
    whether or not the token would verify. *)
Theorem unknown_token_refused
    (token password salt : string) (user : UserPatch) (s : Store) :
  Forall (fun d => TokenData.accessToken d <> token) (tokens s) ->
  verifyUser token s = (Throw (Error "Invalid token"), s)
  /\ updatePassword token password salt s = (Throw (Error "Invalid token"), s)
  /\ updateUser token user s = (Throw (Error "Invalid token"), s)
  /\ deleteUser token s = (Throw (Error "Invalid token"), s)
  /\ kind_of (Error "Invalid token") = InvalidToken.
Proof.
  intros Hnone. apply no_accessToken_find in Hnone.
  unfold verifyUser, updatePassword, updateUser, deleteUser, bind,
    TokenModel_findOne, gets.
  rewrite Hnone. repeat split.
Qed.

(** X11: after [deleteUser] has removed the user behind a token, in a
    collection with unique ids and emails, the token's record is still
    there but leads nowhere: [updatePassword] and [updateUser] with that
    token throw a [TypeError] (not one of the service's own errors) and
    change nothing, a second [deleteUser] returns [true] and changes
    nothing, and a [login] with the deleted user's email throws the
    user-not-found error. *)
Theorem deleted_user_operations
    (token password salt : string) (user : UserPatch) (now : Z)
    (s s' : Store) (d : TokenData.t) (u : User.t) :
  NoDup (User.id <$> users s) ->
  NoDup (User.email <$> users s) ->
  List.find (has_accessToken token) (tokens s) = Some d ->
  List.find (has_id (User.id (TokenData.user d))) (users s) = Some u ->
  deleteUser token s = (Ok true, s') ->
  updatePassword token password salt s' = (Throw (TypeError "password"), s')
  /\ updateUser token user s' = (Throw (TypeError "email"), s')
  /\ kind_of (TypeError "password") = Unclassified
  /\ deleteUser token s' = (Ok true, s')
  /\ login env (User.email u) password now s'
     = (Throw (Error "User not found"), s').
Proof.
  intros Hids Hemails Htoken Huser.
  rewrite (deleteUser_found _ _ _ Htoken). intros [= <-].
  set (s' := set_users _ s).
  assert (Hgone :
    List.find (has_id (User.id (TokenData.user d))) (users s') = None)
    by apply find_remove_first_id, Hids.
  assert (Htoken' : List.find (has_accessToken token) (tokens s') = Some d)
    by exact Htoken.
  split; [|split; [|split; [|split]]].
  - unfold updatePassword, bind, TokenModel_findOne, UserModel_findById, gets.
    rewrite Htoken', User_read_id, Hgone. reflexivity.
  - unfold updateUser, bind, TokenModel_findOne, UserModel_findById, gets.
    rewrite Htoken', User_read_id, Hgone. reflexivity.
  - reflexivity.
  - rewrite (deleteUser_found _ _ _ Htoken').
    unfold set_users. rewrite (remove_first_absent _ _ Hgone).
    destruct s'; reflexivity.
  - pose proof (find_has_id _ _ _ Huser) as Hid. rewrite <- Hid in Huser.
    unfold login, bind, UserModel_findOne, gets.
    change (users s')
      with (remove_first (has_id (User.id (TokenData.user d))) (users s)).
    rewrite <- Hid, (find_remove_first_email _ _ Hemails Huser).
    reflexivity.
Qed.

End Orphans.

(** ** What the middleware decides on *)

Section Gate.
Context {jws : JwsLib} (env : Env).

(** A header value that counts as no token: absent, or empty. *)
Definition no_value (v : option string) : Prop := v = None \/ v = Some "".

Lemma js_not_no_value v : js_not v = true <-> no_value v.
Proof.
  unfold no_value. destruct v as [[|c t]|]; simpl; split; intros H; auto;
    try discriminate; destruct H; discriminate.
Qed.

Lemma header_token_no_value req :
  no_value (header_token req)
  <-> no_value (Request.headers req !! "x-access-token")
      /\ no_value (Request.headers req !! "authorization").
Proof.
  unfold header_token, no_value.
  destruct (Request.headers req !! "x-access-token") as [[|c t]|];
    destruct (Request.headers req !! "authorization") as [[|c' t']|];
    simpl; split; intros H; auto;
    repeat match goal with
           | H : _ \/ _ |- _ => destruct H
           | H : _ /\ _ |- _ => destruct H
           end; discriminate.
Qed.

Lemma isAuthenticated_cases req now :
  isAuthenticated env req now
  = match header_token req with
    | None | Some "" => Send 401 "Access Denied: No Token Provided!"
    | Some tok =>
        match jwt_verify tok (ACCESS_TOKEN_SECRET env) now with
        | Ok claims =>
            Next {| Request.headers := Request.headers req;
                    Request.user := Some claims |}
        | Throw _ => Send 400 "Invalid Token"
        end
    end.
Proof.
  unfold isAuthenticated. destruct (header_token req) as [[|c t]|]; reflexivity.
Qed.

(** X12: which header [isAuthenticated] answers on.  The answer is 401
    exactly when both [x-access-token] and [authorization] are absent or
    empty.  A non-empty [x-access-token] alone decides the answer, so a
    token in [authorization] is then never looked at; [authorization]
    decides only when [x-access-token] is absent or empty.  The function
    never throws. *)
Theorem isAuthenticated_header_choice (req : Request.t) (now : Z) :
  (isAuthenticated env req now = Send 401 "Access Denied: No Token Provided!"
   <-> no_value (Request.headers req !! "x-access-token")
       /\ no_value (Request.headers req !! "authorization"))
  /\ (forall tok,
        Request.headers req !! "x-access-token" = Some tok -> tok <> "" ->
        isAuthenticated env req now
        = match jwt_verify tok (ACCESS_TOKEN_SECRET env) now with
          | Ok claims =>
              Next {| Request.headers := Request.headers req;
                      Request.user := Some claims |}
          | Throw _ => Send 400 "Invalid Token"
          end)
  /\ (forall tok,
        no_value (Request.headers req !! "x-access-token") ->
        Request.headers req !! "authorization" = Some tok -> tok <> "" ->
        isAuthenticated env req now
        = match jwt_verify tok (ACCESS_TOKEN_SECRET env) now with
          | Ok claims =>
              Next {| Request.headers := Request.headers req;
                      Request.user := Some claims |}
          | Throw _ => Send 400 "Invalid Token"
          end)
  /\ (forall e, isAuthenticated env req now <> Raise e).
Proof.
  split; [|split; [|split]].
  - rewrite <- header_token_no_value, <- js_not_no_value.
    rewrite isAuthenticated_cases.
    destruct (header_token req) as [[|c t]|]; simpl;
      try (split; [reflexivity|reflexivity]).
    destruct (jwt_verify _ _ _); split; discriminate.
  - intros tok Hx Hne. apply isAuthenticated_token; [|exact Hne].
    unfold header_token. rewrite Hx. destruct tok; [congruence|reflexivity].
  - intros tok Hx Ha Hne. apply isAuthenticated_token; [|exact Hne].
    unfold header_token. rewrite Ha.
    destruct Hx as [-> | ->]; reflexivity.
  - intros e. rewrite isAuthenticated_cases.
    destruct (header_token req) as [[|c t]|]; try discriminate.
    destruct (jwt_verify _ _ _); discriminate.
Qed.

(** X13: what lets a request through a role gate.  A route guarded by
    [isAuthenticated, hasRole(role)] passes the request on exactly when
    its token header holds a non-empty string that verifies under the
    access-token secret to claims whose [role] is the required role; the
    request passed on carries those claims.  The store and the user's
    document play no part, and the pair never throws. *)
Theorem guarded_passes_iff
    (role : string) (req req' : Request.t) (now : Z) :
  (guarded env role req now = Next req'
   <-> exists tok claims,
         header_token req = Some tok
         /\ tok <> ""
         /\ jwt_verify tok (ACCESS_TOKEN_SECRET env) now = Ok claims
         /\ get claims "role" = JStr role
         /\ req' = {| Request.headers := Request.headers req;
                      Request.user := Some claims |})
  /\ (forall e, guarded env role req now <> Raise e).
Proof.
  unfold guarded. rewrite isAuthenticated_cases. split.
  - split.
    + destruct (header_token req) as [[|c t]|]; try discriminate.
      destruct (jwt_verify _ _ _) as [claims|e] eqn:Hverify; [|discriminate].
      unfold hasRole, strict_ne. simpl.
      destruct (bool_decide_reflect (get claims "role" = JStr role))
        as [Hrole|Hrole]; simpl; [|discriminate].
      intros [= <-]. exists (String c t), claims.
      repeat split; auto; discriminate.
    + intros (tok & claims & -> & Hne & Hverify & Hrole & ->).
      destruct tok as [|c t]; [congruence|]. rewrite Hverify.
      unfold hasRole, strict_ne. simpl.
      rewrite bool_decide_eq_true_2 by exact Hrole. reflexivity.
  - intros e. destruct (header_token req) as [[|c t]|]; try discriminate.
    destruct (jwt_verify _ _ _) as [claims|e']; [|discriminate].
    unfold hasRole. simpl. destruct (strict_ne _ _); discriminate.
Qed.

End Gate.

(** ** Requests through the router *)

(** The routes the router puts behind [isAuthenticated], and those it also
    puts behind [hasRole('admin')]. *)
Definition authenticated_route (r : route) : bool :=
  match r with
  | PostLogin | PostLogout | PostRegister => false
  | _ => true
  end.

Definition admin_route (r : route) : bool :=
  match r with
  | PostValidateRole | PostUpdateUser | DeleteDeleteUser => true
  | _ => false
  end.

Section Routes.
Context {jws : JwsLib} {bcrypt : BcryptLib} (env : Env).

Lemma respond_status {A} (service : M A) (ok : A -> payload) s :
  status (fst (respond service ok s)) = 200
  \/ status (fst (respond service ok s)) = 500.
Proof. unfold respond. destruct (service s) as [[a|e] s']; auto. Qed.

Lemma isAuthenticated_outcomes req now :
  (exists req', isAuthenticated env req now = Next req')
  \/ isAuthenticated env req now = Send 401 "Access Denied: No Token Provided!"
  \/ isAuthenticated env req now = Send 400 "Invalid Token".
Proof.
  rewrite isAuthenticated_cases.
  destruct (header_token req) as [[|c t]|]; auto.
  destruct (jwt_verify _ _ _); eauto.
Qed.

Lemma guarded_outcomes role req now :
  (exists req', guarded env role req now = Next req')
  \/ guarded env role req now = Send 401 "Access Denied: No Token Provided!"
  \/ guarded env role req now = Send 400 "Invalid Token"
  \/ guarded env role req now
     = Send 403 "Access Denied: You dont have correct role".
Proof.
  unfold guarded. rewrite isAuthenticated_cases.
  destruct (header_token req) as [[|c t]|]; auto.
  destruct (jwt_verify _ _ _) as [claims|e]; auto.
  unfold hasRole. simpl. destruct (strict_ne _ _); eauto 6.
Qed.

End Routes.

Section Routing.
Context {jws : JwsLib} {bcrypt : BcryptLib} (env : Env).

Definition denied_401 : Response :=
  {| status := 401; body := Text "Access Denied: No Token Provided!" |}.
Definition denied_400 : Response :=
  {| status := 400; body := Text "Invalid Token" |}.
Definition denied_403 : Response :=
  {| status := 403;
     body := Text "Access Denied: You dont have correct role" |}.

Lemma behind_isAuthenticated req now (h : Handler) s :
  behind (isAuthenticated env req now) h s = h s
  \/ behind (isAuthenticated env req now) h s = (denied_401, s)
  \/ behind (isAuthenticated env req now) h s = (denied_400, s).
Proof.
  destruct (isAuthenticated_outcomes env req now) as [[req' ->]|[-> | ->]];
    auto.
Qed.

Lemma behind_guarded role req now (h : Handler) s :
  behind (guarded env role req now) h s = h s
  \/ behind (guarded env role req now) h s = (denied_401, s)
  \/ behind (guarded env role req now) h s = (denied_400, s)
  \/ behind (guarded env role req now) h s = (denied_403, s).
Proof.
  destruct (guarded_outcomes env role req now)
    as [[req' ->]|[-> |[-> | ->]]]; auto.
Qed.

(** X14: the status codes of the service.  Every route answers 200 or 500
    once its controller runs, whatever the service returned or threw.  The
    only other answers are those of the middleware, given before the
    controller runs and so with the store untouched: 401 or 400 on the
    routes behind [isAuthenticated], and 403 on the three routes behind
    [hasRole('admin')].  [POST /logout] answers 200 with its message for
    every request. *)
Theorem route_statuses
    (r : route) (req : Request.t) (b : Body.t) (w : Ambient) (s : Store) :
  (status (fst (handle env r req b w s)) = 200
   \/ status (fst (handle env r req b w s)) = 500
   \/ (authenticated_route r = true
       /\ snd (handle env r req b w s) = s
       /\ (fst (handle env r req b w s) = denied_401
           \/ fst (handle env r req b w s) = denied_400))
   \/ (admin_route r = true
       /\ snd (handle env r req b w s) = s
       /\ fst (handle env r req b w s) = denied_403))
  /\ (exists s',
        handle env PostLogout req b w s
        = ({| status := 200; body := JsonMessage "User logged out" |}, s')).
Proof.
  split.
  - destruct r; cbn [handle authenticated_route admin_route];
      try match goal with
          | |- context [behind (isAuthenticated _ _ _) ?h _] =>
              destruct (behind_isAuthenticated req (amb_now w) h s)
                as [-> |[-> | ->]]; [|simpl; auto 7..]
          | |- context [behind (guarded _ _ _ _) ?h _] =>
              destruct (behind_guarded "admin" req (amb_now w) h s)
                as [-> |[-> |[-> | ->]]]; [|simpl; auto 7..]
          end;
      unfold AuthController.login, AuthController.logout,
        AuthController.register, AuthController.refreshToken,
        AuthController.validateRole, AuthController.updatePassword,
        AuthController.verifyToken, AuthController.verifyRefreshToken,
        AuthController.verifyUser, AuthController.updateUser,
        AuthController.deleteUser;
      match goal with
      | |- context [respond ?m ?ok s] =>
          destruct (respond_status m ok s); tauto
      end.
  - simpl. unfold AuthController.logout, respond.
    rewrite logout_run. eauto.
Qed.

End Routing.

Section RouteTokens.
Context {jws : JwsLib} {bcrypt : BcryptLib} (env : Env).

Lemma guarded_issued u now now' role req :
  header_token req
  = Some (jwt_sign {["id" := User.read u "id"]} (ACCESS_TOKEN_SECRET env)
                   7200 now) ->
  clock now' < clock now + 7200 ->
  guarded env role req now'
  = Send 403 "Access Denied: You dont have correct role".
Proof.
  intros Hhdr Hfresh. unfold guarded.
  rewrite (isAuthenticated_issued env u now now' req Hhdr Hfresh).
  unfold hasRole. simpl.
  destruct (issued_claims_get u 7200 now) as (_ & _ & _ & ->). reflexivity.
Qed.

(** X15: the three routes behind [hasRole('admin')] are closed to every
    token the service issues.  A request to [POST /validateRole],
    [POST /updateUser] or [DELETE /deleteUser] that carries an access
    token returned by [generateCredentials], sent before it expires, is
    answered 403 and the store is left untouched, whatever the body and
    whatever the role of the user the token was issued for. *)
Theorem admin_routes_closed
    (r : route) (u : User.t) (now : Z) (s0 s0' : Store)
    (creds : Credentials.t) (req : Request.t) (b : Body.t) (w : Ambient)
    (s : Store) :
  admin_route r = true ->
  generateCredentials env (Some u) now s0 = (Ok creds, s0') ->
  header_token req = Some (Credentials.accessToken creds) ->
  clock (amb_now w) < clock now + 7200 ->
  handle env r req b w s
  = ({| status := 403;
        body := Text "Access Denied: You dont have correct role" |}, s).
Proof.
  intros Hadmin Hissue Hhdr Hfresh.
  rewrite generateCredentials_issues in Hissue.
  injection Hissue as <- _. simpl in Hhdr.
  destruct r; try discriminate; cbn [handle];
    rewrite (guarded_issued u now (amb_now w) "admin" req Hhdr Hfresh);
    reflexivity.
Qed.

(** X16: behind [isAuthenticated], the controllers act on the token in the
    request body, not on the one in the header.  When the header token
    verifies, [POST /verify/user] answers 200 with the user document of
    the body token's record, password hash included, and
    [POST /updatePassword] replaces the password hash of that record's
    user, for any body token that has a record: it need not be the header
    token, belong to the same user, or still verify. *)
Theorem body_token_decides
    (req req' : Request.t) (b : Body.t) (w : Ambient) (s : Store)
    (d : TokenData.t) (u : User.t) :
  isAuthenticated env req (amb_now w) = Next req' ->
  List.find (has_accessToken (Body.token b)) (tokens s) = Some d ->
  List.find (has_id (User.id (TokenData.user d))) (users s) = Some u ->
  handle env PostVerifyUser req b w s
  = ({| status := 200; body := JsonUser (TokenData.user d) |}, s)
  /\ User.read (TokenData.user d) "password"
     = JStr (User.password (TokenData.user d))
  /\ handle env PostUpdatePassword req b w s
     = ({| status := 200;
           body := JsonMessage "Password updated successfully" |},
        set_users
          (replace_first (has_id (User.id u))
             (User.set_password u
                (bcrypt_hash (Body.password b) 10 (amb_salt w)))) s).
Proof.
  intros Hauth Htoken Huser. cbn [handle]. rewrite Hauth. cbn [behind].
  unfold AuthController.verifyUser, AuthController.updatePassword, respond.
  rewrite verifyUser_run, Htoken.
  rewrite (updatePassword_found _ _ _ _ _ _ Htoken Huser).
  repeat split.
Qed.

End RouteTokens.

(** ** Further concrete requests *)

Module Sessions.
Import Mock.

(** The calls that lead to [Scenario.s2]. *)
Definition calls_to_s2 : list call :=
  [ CallRegister "ann@example.com" "pw123" "admin" "Ann" "Lee"
                 "64a1f0c2e4b0a1b2c3d4e5f6" "salt1" Scenario.t0;
    CallLogin "ann@example.com" "pw123" Scenario.t1 ].

(** A second user registers a minute after the first. *)
Definition bob : User.t :=
  {| User.id := "64a1f0c2e4b0a1b2c3d4e5f7";
     User.email := "bob@example.com";
     User.password := hash "hunter2" 10 "salt3";
     User.role := "member";
     User.firstname := "Bob";
     User.lastname := "Ray" |}.

Definition bob_registered : result Credentials.t * Store :=
  register env "bob@example.com" "hunter2" "member" "Bob" "Ray"
           "64a1f0c2e4b0a1b2c3d4e5f7" "salt3" Scenario.t1 Scenario.s1.

Definition bob_creds : Credentials.t :=
  match fst bob_registered with
  | Ok c => c
  | Throw _ => Credentials.mk "" "" ∅
  end.

Definition bob_record : TokenData.t :=
  {| TokenData.accessToken := Credentials.accessToken bob_creds;
     TokenData.accessTokenExpiresAt := Scenario.t1 + 7200000;
     TokenData.refreshToken := Credentials.refreshToken bob_creds;
     TokenData.refreshTokenExpiresAt := Scenario.t1 + 604800000;
     TokenData.user := bob |}.

(** Three hours later the first user logs in. *)
Definition late : Z := 1700010800000.

Definition ann_late : result Credentials.t * Store :=
  login env "ann@example.com" "pw123" late (snd bob_registered).

Definition ann_late_creds : Credentials.t :=
  match fst ann_late with
  | Ok c => c
  | Throw _ => Credentials.mk "" "" ∅
  end.

Definition s_late : Store := snd ann_late.

(** A request a minute after that login: the header carries the first
    user's fresh token, the body the second user's token of three hours
    before. *)
Definition mixed_request : Request.t :=
  {| Request.headers :=
       {["x-access-token" := Credentials.accessToken ann_late_creds]};
     Request.user := None |}.

Definition mixed_body : Body.t :=
  {| Body.email := ""; Body.password := "changed"; Body.role := "";
     Body.firstname := ""; Body.lastname := ""; Body.refreshToken := "";
     Body.token := Credentials.accessToken bob_creds;
     Body.user := {| patch_email := ""; patch_role := "";
                     patch_firstname := ""; patch_lastname := "" |} |}.

Definition a_minute_later : Ambient :=
  {| amb_now := late + 60000; amb_ran := true;
     amb_oid := "64a1f0c2e4b0a1b2c3d4e5f8"; amb_salt := "salt4" |}.

(** A change of email and role for the first user. *)
Definition demotion : UserPatch :=
  {| patch_email := "ann@example.org"; patch_role := "member";
     patch_firstname := "Ann"; patch_lastname := "Lee" |}.

(** A request to an admin route with the token of the first user's login,
    a minute after it. *)
Definition admin_body : Body.t :=
  {| Body.email := ""; Body.password := ""; Body.role := "admin";
     Body.firstname := ""; Body.lastname := ""; Body.refreshToken := "";
     Body.token := Credentials.accessToken Scenario.creds2;
     Body.user := demotion |}.

Definition at_t2 : Ambient :=
  {| amb_now := Scenario.t2; amb_ran := true;
     amb_oid := "64a1f0c2e4b0a1b2c3d4e5f8"; amb_salt := "salt4" |}.

End Sessions.



Lemma resolved_user_is_subject_witness :
  after_calls (jws := Mock.jws) (bcrypt := Mock.bcrypt) Mock.env
    Sessions.calls_to_s2 no_store
  = Scenario.s2
  /\ verifyUser (Credentials.accessToken Scenario.creds2) Scenario.s2
     = (Ok Scenario.ann, Scenario.s2)
  /\ verifyToken (jws := Mock.jws) Mock.env
       (Credentials.accessToken Scenario.creds2) Scenario.t2 Scenario.s2
     = (Ok (issued_claims Scenario.ann 7200 Scenario.t1), Scenario.s2)
  /\ get (issued_claims Scenario.ann 7200 Scenario.t1) "id"
     = JStr (User.id Scenario.ann).
Proof.
  assert (Hreach :
    after_calls (jws := Mock.jws) (bcrypt := Mock.bcrypt) Mock.env
      Sessions.calls_to_s2 no_store
    = Scenario.s2) by (vm_compute; reflexivity).
  assert (Huser :
    verifyUser (Credentials.accessToken Scenario.creds2) Scenario.s2
    = (Ok Scenario.ann, Scenario.s2)) by (vm_compute; reflexivity).
  assert (Hverify :
    verifyToken (jws := Mock.jws) Mock.env
      (Credentials.accessToken Scenario.creds2) Scenario.t2 Scenario.s2
    = (Ok (issued_claims Scenario.ann 7200 Scenario.t1), Scenario.s2))
    by (vm_compute; reflexivity).
  split; [exact Hreach|]. split; [exact Huser|]. split; [exact Hverify|].
  rewrite <- Hreach in Huser, Hverify.
  apply (resolved_user_is_subject (jws := Mock.jws) (bcrypt := Mock.bcrypt)
           Mock.env Sessions.calls_to_s2
           (Credentials.accessToken Scenario.creds2) Scenario.ann
           (issued_claims Scenario.ann 7200 Scenario.t1) Scenario.t2
           Huser Hverify).
Defined.


Lemma register_then_login_witness :
  Scenario.registered
  = (Ok (Credentials.mk
           (jwt_sign (jws := Mock.jws) {["id" := User.read Scenario.ann "id"]}
              "access-secret" 7200 Scenario.t0)
           (jwt_sign (jws := Mock.jws) {["id" := User.read Scenario.ann "id"]}
              "refresh-secret" 604800 Scenario.t0)
           (public_user Scenario.ann)),
     Scenario.s1)
  /\ users Scenario.s1 = [Scenario.ann]
  /\ (exists creds s,
        login (jws := Mock.jws) (bcrypt := Mock.bcrypt) Mock.env
              "ann@example.com" "pw123" Scenario.t1 Scenario.s1
        = (Ok creds, s))
  /\ login (jws := Mock.jws) (bcrypt := Mock.bcrypt) Mock.env
           "ann@example.com" "pw124" Scenario.t1 Scenario.s1
     = (Throw (Error "Invalid password"), Scenario.s1).
Proof.
  assert (Hregister :
    Scenario.registered
    = (Ok (Credentials.mk
             (jwt_sign (jws := Mock.jws)
                {["id" := User.read Scenario.ann "id"]}
                "access-secret" 7200 Scenario.t0)
             (jwt_sign (jws := Mock.jws)
                {["id" := User.read Scenario.ann "id"]}
                "refresh-secret" 604800 Scenario.t0)
             (public_user Scenario.ann)),
       Scenario.s1)) by (vm_compute; reflexivity).
  split; [exact Hregister|].
  destruct (register_then_login (jws := Mock.jws) (bcrypt := Mock.bcrypt)
              Mock.env "ann@example.com" "pw123" "admin" "Ann" "Lee"
              "64a1f0c2e4b0a1b2c3d4e5f6" "salt1" Scenario.t0 Scenario.t1
              Scenario.empty_store Scenario.s1 _ (Forall_nil _) Hregister)
    as (Husers & _ & (creds & s & Hlogin & _) & Hwrong).
  split; [exact Husers|]. split; [eauto|].
  apply Hwrong. vm_compute; reflexivity.
Defined.



Lemma unknown_token_refused_witness :
  verifyUser "not-a-token" Scenario.s2
  = (Throw (Error "Invalid token"), Scenario.s2)
  /\ deleteUser "not-a-token" Scenario.s2
     = (Throw (Error "Invalid token"), Scenario.s2).
Proof.
  destruct (unknown_token_refused (bcrypt := Mock.bcrypt) "not-a-token"
              "pw456" "salt2" Sessions.demotion Scenario.s2)
    as (Hverify & _ & _ & Hdelete & _).
  - repeat constructor; discriminate.
  - split; [exact Hverify|exact Hdelete].
Defined.

Lemma deleted_user_operations_witness :
  Scenario.deleted = (Ok true, Scenario.s2_deleted)
  /\ users Scenario.s2_deleted = []
  /\ length (tokens Scenario.s2_deleted) = 2%nat
  /\ updatePassword (bcrypt := Mock.bcrypt)
       (Credentials.accessToken Scenario.creds2) "pw456" "salt2"
       Scenario.s2_deleted
     = (Throw (TypeError "password"), Scenario.s2_deleted)
  /\ deleteUser (Credentials.accessToken Scenario.creds2) Scenario.s2_deleted
     = (Ok true, Scenario.s2_deleted)
  /\ login (jws := Mock.jws) (bcrypt := Mock.bcrypt) Mock.env
           "ann@example.com" "pw123" Scenario.t2 Scenario.s2_deleted
     = (Throw (Error "User not found"), Scenario.s2_deleted).
Proof.
  assert (Hdeleted : Scenario.deleted = (Ok true, Scenario.s2_deleted))
    by (vm_compute; reflexivity).
  assert (Husers : users Scenario.s2 = [Scenario.ann])
    by (vm_compute; reflexivity).
  split; [exact Hdeleted|]. split; [vm_compute; reflexivity|].
  split; [vm_compute; reflexivity|].
  destruct (deleted_user_operations (jws := Mock.jws) (bcrypt := Mock.bcrypt)
              Mock.env (Credentials.accessToken Scenario.creds2) "pw456"
              "salt2" Sessions.demotion Scenario.t2 Scenario.s2
              Scenario.s2_deleted Scenario.login_record Scenario.ann)
    as (Hpassword & _ & _ & Hagain & Hlogin).
  - rewrite Husers. apply NoDup_singleton.
  - rewrite Husers. apply NoDup_singleton.
  - vm_compute; reflexivity.
  - rewrite Husers. vm_compute; reflexivity.
  - exact Hdeleted.
  - split; [exact Hpassword|]. split; [exact Hagain|].
    assert (Hsame :
      login (jws := Mock.jws) (bcrypt := Mock.bcrypt) Mock.env
            "ann@example.com" "pw123" Scenario.t2 Scenario.s2_deleted
      = login (jws := Mock.jws) (bcrypt := Mock.bcrypt) Mock.env
              "ann@example.com" "pw456" Scenario.t2 Scenario.s2_deleted)
      by (vm_compute; reflexivity).
    rewrite Hsame. exact Hlogin.
Defined.

Lemma admin_routes_closed_witness :
  generateCredentials (jws := Mock.jws) Mock.env (Some Scenario.ann)
    Scenario.t1 Scenario.s1
  = (Ok Scenario.creds2, Scenario.s2)
  /\ User.role Scenario.ann = "admin"
  /\ handle (jws := Mock.jws) (bcrypt := Mock.bcrypt) Mock.env
       DeleteDeleteUser Scenario.admin_request Sessions.admin_body
       Sessions.at_t2 Scenario.s2
     = ({| status := 403;
           body := Text "Access Denied: You dont have correct role" |},
        Scenario.s2).
Proof.
  assert (Hissue :
    generateCredentials (jws := Mock.jws) Mock.env (Some Scenario.ann)
      Scenario.t1 Scenario.s1
    = (Ok Scenario.creds2, Scenario.s2)) by (vm_compute; reflexivity).
  split; [exact Hissue|]. split; [reflexivity|].
  apply (admin_routes_closed (jws := Mock.jws) (bcrypt := Mock.bcrypt)
           Mock.env DeleteDeleteUser Scenario.ann Scenario.t1 Scenario.s1
           Scenario.s2 Scenario.creds2 Scenario.admin_request
           Sessions.admin_body Sessions.at_t2 Scenario.s2 eq_refl Hissue).
  - vm_compute; reflexivity.
  - vm_compute; reflexivity.
Defined.

Lemma body_token_decides_witness :
  Request.headers Sessions.mixed_request !! "x-access-token"
  = Some (Credentials.accessToken Sessions.ann_late_creds)
  /\ Credentials.user Sessions.ann_late_creds !! "email"
     = Some (JStr "ann@example.com")
  /\ Body.token Sessions.mixed_body
     = Credentials.accessToken Sessions.bob_creds
  /\ jwt_verify (jws := Mock.jws) (Body.token Sessions.mixed_body)
       (ACCESS_TOKEN_SECRET Mock.env) (amb_now Sessions.a_minute_later)
     = Throw TokenExpiredError
  /\ handle (jws := Mock.jws) (bcrypt := Mock.bcrypt) Mock.env
       PostVerifyUser Sessions.mixed_request Sessions.mixed_body
       Sessions.a_minute_later Sessions.s_late
     = ({| status := 200; body := JsonUser Sessions.bob |}, Sessions.s_late)
  /\ List.find (has_id (User.id Sessions.bob))
       (users
          (snd (handle (jws := Mock.jws) (bcrypt := Mock.bcrypt) Mock.env
                  PostUpdatePassword Sessions.mixed_request
                  Sessions.mixed_body Sessions.a_minute_later
                  Sessions.s_late)))
     = Some (User.set_password Sessions.bob
               (bcrypt_hash (BcryptLib := Mock.bcrypt) "changed" 10 "salt4")).
Proof.
  split; [reflexivity|]. split; [vm_compute; reflexivity|].
  split; [reflexivity|]. split; [vm_compute; reflexivity|].
  destruct (body_token_decides (jws := Mock.jws) (bcrypt := Mock.bcrypt)
              Mock.env Sessions.mixed_request
              {| Request.headers := Request.headers Sessions.mixed_request;
                 Request.user :=
                   Some (issued_claims Scenario.ann 7200 Sessions.late) |}
              Sessions.mixed_body Sessions.a_minute_later Sessions.s_late
              Sessions.bob_record Sessions.bob)
    as (Hverify & _ & Hupdate).
  - vm_compute; reflexivity.
  - vm_compute; reflexivity.
  - vm_compute; reflexivity.
  - split; [exact Hverify|]. rewrite Hupdate. vm_compute; reflexivity.
Defined.
